(** * kafka_system_test_utils: remote entity lifecycle and validation

    A shallow embedding of [system_test/utils/kafka_system_test_utils.py]
    (Python 2) and the properties of its path resolver, config
    materializer, process lifecycle manager, log fact extractor and
    validation engine.

    Python objects that the module mutates ([testcaseEnv] and its
    dictionaries, the file system, the loggers, standard output, the
    commands sent to remote hosts) live in one [World]; a Python function
    becomes a computation in the state-and-exception monad [M] over it. *)

From Stdlib Require Import Ascii String.
From stdpp Require Import base option list strings pretty gmap fin_maps fin_sets.

Set Default Proof Using "Type".

(** ** Python strings *)

Module PyStr.

Definition nl_char : ascii := "010"%char.
Definition nl : string := String nl_char "".

  (** [line.startswith(p)] *)
Definition startswith (line p : string) : bool := String.prefix p line.

  (** [sub in s] *)
Fixpoint contains (sub s : string) : bool :=
    String.prefix sub s ||
    match s with
    | "" => false
    | String _ r => contains sub r
    end.

  (** [s.rstrip('\n')]: every trailing newline goes. *)
Fixpoint rstrip_nl (s : string) : string :=
    match s with
    | "" => ""
    | String c r =>
        match rstrip_nl r with
        | "" => if decide (c = nl_char) then "" else String c ""
        | r' => String c r'
        end
    end.

  (** [s.split(sep)] for a one-character separator: the pieces between
      the separators, at least one piece. *)
Fixpoint split_go (sep : ascii) (cur : string) (s : string) : list string :=
    match s with
    | "" => [String.rev cur]
    | String c r =>
        if decide (c = sep) then String.rev cur :: split_go sep "" r
        else split_go sep (String c cur) r
    end.
Definition split (sep : ascii) (s : string) : list string := split_go sep "" s.

  (** [sep.join(l)] *)
Fixpoint join (sep : string) (l : list string) : string :=
    match l with
    | [] => ""
    | [x] => x
    | x :: r => x +:+ sep +:+ join sep r
    end.

  (** [c in s] for one character. *)
Fixpoint has_char (c : ascii) (s : string) : bool :=
    match s with
    | "" => false
    | String a r => bool_decide (a = c) || has_char c r
    end.

  (** [f.readlines()]: the lines of a text, each with its terminator; the
      last one has none when the text does not end in a newline. *)
Fixpoint readlines_go (cur : string) (s : string) : list string :=
    match s with
    | "" => match cur with "" => [] | _ => [String.rev cur] end
    | String c r =>
        if decide (c = nl_char) then String.rev (String c cur) :: readlines_go "" r
        else readlines_go (String c cur) r
    end.
Definition readlines (s : string) : list string := readlines_go "" s.

End PyStr.

(** ** Exceptions, results and the monad *)

Inductive exn : Type :=
  | KeyError (key : string)
  | IndexError
  | TypeError
  | AttributeError
  | ValueError
  | ReError
  | UnboundLocalError (var : string)
  | IOError (path : string).

Inductive res (A : Type) : Type :=
  | Raise (e : exn)
  | Ret (a : A).
Arguments Raise {A} e.
Arguments Ret {A} a.

(** A computation over a state [S]: it returns or raises, and in both
    cases leaves the state it reached (Python keeps the mutations made
    before an exception). *)
Definition St (S A : Type) : Type := S → res A * S.

Global Instance St_ret {S} : MRet (St S) := λ A a s, (Ret a, s).
Global Instance St_bind {S} : MBind (St S) := λ A B f m s,
  match m s with
  | (Ret a, s') => f a s'
  | (Raise e, s') => (Raise e, s')
  end.

Definition raise {S A} (e : exn) : St S A := λ s, (Raise e, s).
Definition get {S} : St S S := λ s, (Ret s, s).
Definition modify {S} (f : S → S) : St S unit := λ s, (Ret tt, f s).

(** [for x in l: body x] *)
Fixpoint for_each {S A} (l : list A) (body : A → St S unit) : St S unit :=
  match l with
  | [] => mret tt
  | x :: r => body x ;; for_each r body
  end.

(** A loop that rebinds a local variable: [for x in l: v = body v x]. *)
Fixpoint for_fold {S A V} (l : list A) (v : V) (body : V → A → St S V) : St S V :=
  match l with
  | [] => mret v
  | x :: r => v' ← body v x; for_fold r v' body
  end.

(** ** Data model *)

(** A dictionary read from the JSON configuration (a cluster entity, a
    per-testcase entity configuration): string keys and string values.
    The list fixes the order in which [keys()] enumerates it; Python 2
    promises no particular order, and the properties below that depend on
    it are proved for every order. *)
Definition pydict : Type := list (string * string).

Module Dict.
Fixpoint lookup (d : pydict) (k : string) : option string :=
    match d with
    | [] => None
    | (k', v) :: r => if decide (k' = k) then Some v else lookup r k
    end.

Definition keys (d : pydict) : list string := d.*1.

  (** [d[k] = v]: replaces the value of a key that is there, adds the key
      otherwise. *)
Fixpoint set (d : pydict) (k v : string) : pydict :=
    match d with
    | [] => [(k, v)]
    | (k', v') :: r => if decide (k' = k) then (k, v) :: r else (k', v') :: set r k v
    end.

  (** [d[k]] *)
Definition get {S} (d : pydict) (k : string) : St S string :=
    match lookup d k with
    | Some v => mret v
    | None => raise (KeyError k)
    end.
End Dict.

(** A value held by the leader dictionary: the strings of the matched
    groups, [None] for a group that took no part in the match, and the
    float timestamp, kept as its count of microseconds since the epoch. *)
Inductive pyval : Type :=
  | PStr (s : string)
  | PNone
  | PFloat (micros : Z).

Record SystemTestEnv : Type := {
  clusterEntityConfigDictList : list pydict
}.

Record TestcaseEnv : Type := {
  testCaseBaseDir : string;
  testCaseLogsDir : string;
  testcaseConfigsList : list pydict;
  userDefinedEnvVarDict : gmap string string;
  entityParentPidDict : gmap string string;
  validationStatusDict : gmap string string
}.

Inductive level : Type := DEBUG | INFO | ERROR.

Inductive event : Type :=
  | SysCall (cmd : string)
  | AsyncSysCall (cmd : string)
  | SysCallReturnSubproc (cmd : string)
  | Sleep (seconds : nat).

Record World : Type := {
  testcaseEnv : TestcaseEnv;
  (** path ↦ content of the files of the local host *)
  files : gmap string string;
  (** records of [logger] and [anonLogger], oldest first *)
  logged : list (level * string);
  (** lines printed on standard output, oldest first *)
  printed : list string;
  (** commands issued and sleeps, oldest first *)
  trace : list event
}.

Definition M (A : Type) : Type := St World A.

Definition set_testcaseEnv (f : TestcaseEnv → TestcaseEnv) (w : World) : World :=
  {| testcaseEnv := f (testcaseEnv w); files := files w; logged := logged w;
     printed := printed w; trace := trace w |}.
Definition set_files (f : gmap string string → gmap string string) (w : World) : World :=
  {| testcaseEnv := testcaseEnv w; files := f (files w); logged := logged w;
     printed := printed w; trace := trace w |}.
Definition add_logged (r : level * string) (w : World) : World :=
  {| testcaseEnv := testcaseEnv w; files := files w; logged := logged w ++ [r];
     printed := printed w; trace := trace w |}.
Definition add_printed (s : string) (w : World) : World :=
  {| testcaseEnv := testcaseEnv w; files := files w; logged := logged w;
     printed := printed w ++ [s]; trace := trace w |}.
Definition add_trace (e : event) (w : World) : World :=
  {| testcaseEnv := testcaseEnv w; files := files w; logged := logged w;
     printed := printed w; trace := trace w ++ [e] |}.

Definition set_userDefinedEnvVarDict (f : gmap string string → gmap string string)
    (e : TestcaseEnv) : TestcaseEnv :=
  {| testCaseBaseDir := testCaseBaseDir e; testCaseLogsDir := testCaseLogsDir e;
     testcaseConfigsList := testcaseConfigsList e;
     userDefinedEnvVarDict := f (userDefinedEnvVarDict e);
     entityParentPidDict := entityParentPidDict e;
     validationStatusDict := validationStatusDict e |}.
Definition set_entityParentPidDict (f : gmap string string → gmap string string)
    (e : TestcaseEnv) : TestcaseEnv :=
  {| testCaseBaseDir := testCaseBaseDir e; testCaseLogsDir := testCaseLogsDir e;
     testcaseConfigsList := testcaseConfigsList e;
     userDefinedEnvVarDict := userDefinedEnvVarDict e;
     entityParentPidDict := f (entityParentPidDict e);
     validationStatusDict := validationStatusDict e |}.
Definition set_validationStatusDict (f : gmap string string → gmap string string)
    (e : TestcaseEnv) : TestcaseEnv :=
  {| testCaseBaseDir := testCaseBaseDir e; testCaseLogsDir := testCaseLogsDir e;
     testcaseConfigsList := testcaseConfigsList e;
     userDefinedEnvVarDict := userDefinedEnvVarDict e;
     entityParentPidDict := entityParentPidDict e;
     validationStatusDict := f (validationStatusDict e) |}.
Definition set_testcaseConfigsList (f : list pydict → list pydict)
    (e : TestcaseEnv) : TestcaseEnv :=
  {| testCaseBaseDir := testCaseBaseDir e; testCaseLogsDir := testCaseLogsDir e;
     testcaseConfigsList := f (testcaseConfigsList e);
     userDefinedEnvVarDict := userDefinedEnvVarDict e;
     entityParentPidDict := entityParentPidDict e;
     validationStatusDict := validationStatusDict e |}.

(** [logger.debug], [logger.info], [logger.error] *)
Definition logger_debug (msg : string) : M unit := modify (add_logged (DEBUG, msg)).
Definition logger_info (msg : string) : M unit := modify (add_logged (INFO, msg)).
Definition logger_error (msg : string) : M unit := modify (add_logged (ERROR, msg)).
(** [print] *)
Definition print (s : string) : M unit := modify (add_printed s).
(** [time.sleep] *)
Definition sleep (n : nat) : M unit := modify (add_trace (Sleep n)).

(** [testcaseEnv.userDefinedEnvVarDict[k]] *)
Definition userDefinedEnvVar (k : string) : M string :=
  w ← get;
  match userDefinedEnvVarDict (testcaseEnv w) !! k with
  | Some v => mret v
  | None => raise (KeyError k)
  end.

(** String concatenation with a value that may be [None]: Python raises
    [TypeError] there. *)
Definition str {S} (v : option string) : St S string :=
  match v with
  | Some s => mret s
  | None => raise TypeError
  end.

(** ** Path resolver *)

Definition get_testcase_config_log_dir_pathname (role entityId type : string) : M string :=
  w ← get;
  let env := testcaseEnv w in
  let defaultLogDir := testCaseLogsDir env +:+ "/" +:+ role +:+ "-" +:+ entityId in
  if decide (type = "metrics") then
    mret (testCaseLogsDir env +:+ "/" +:+ role +:+ "-" +:+ entityId +:+ "/metrics")
  else if decide (type = "default") then
    mret (testCaseLogsDir env +:+ "/" +:+ role +:+ "-" +:+ entityId)
  else if decide (type = "dashboards") then
    mret (testCaseLogsDir env +:+ "/dashboards")
  else if decide (type = "config") then
    mret (testCaseBaseDir env +:+ "/config")
  else
    logger_error ("unrecognized log directory type : " +:+ type);;
    logger_error ("returning default log dir : " +:+ defaultLogDir);;
    mret defaultLogDir.

(** ** Collaborators outside the module *)

(** The module [system_test_utils], imported by the source, is an
    external collaborator: its dictionary-list queries and its remote
    execution primitives are taken as an interface.  A query that finds
    nothing, or a field that holds no string, is [None]. *)
Class SystemTestUtils : Type := {
  get_data_from_list_of_dicts : list pydict → string → string → string → list string;
  get_dict_from_list_of_dicts : list pydict → string → string → list pydict;
  get_data_by_lookup_keyval : list pydict → string → string → string → option string;
  (** what the remote command prints, given all that was issued before *)
  remote_stdout : list event → string → string
}.

(** The functions of the Python library that the module calls and that
    are not modelled here: [os.path.abspath], [re.match] with a pattern
    supplied by the caller (an invalid pattern raises, no match is [None],
    a match gives its groups, [None] for a group that took no part), and
    [datetime.strptime] with format [%Y-%m-%d %H:%M:%S,%f] followed by
    [time.mktime], in microseconds. *)
Class PyLib : Type := {
  abspath : string → string;
  re_match : string → string → res (option (list (option string)));
  strptime_mktime : string → option Z
}.

(** What Python's [print] shows of the values that the module prints
    (a dictionary of the configuration, the leader dictionary, an
    exception) and, in the text of a [KeyError], of a key that is no
    string: the texts are those of [repr] and [str], which are not
    modelled here. *)
Class PyPrint : Type := {
  repr_pydict : pydict → string;
  repr_leaderDict : gmap string pyval → string;
  repr_key : pyval → string;
  str_exn : exn → string
}.

Definition lift_res {S A} (r : res A) : St S A := λ s, (r, s).

(** [matchObj.group(n)], for n ≥ 1 *)
Definition group (groups : list (option string)) (n : nat) : res pyval :=
  match groups !! pred n with
  | Some (Some s) => Ret (PStr s)
  | Some None => Ret PNone
  | None => Raise IndexError
  end.

Definition pyval_of (v : option string) : pyval :=
  match v with Some s => PStr s | None => PNone end.

Section with_collaborators.
Context `{!SystemTestUtils, !PyLib, !PyPrint}.

Definition sys_call (cmd : string) : M unit := modify (add_trace (SysCall cmd)).
Definition async_sys_call (cmd : string) : M unit := modify (add_trace (AsyncSysCall cmd)).
  (** [sys_call_return_subproc(cmd).stdout.readlines()] *)
Definition sys_call_return_subproc_lines (cmd : string) : M (list string) :=
    w ← get;
    modify (add_trace (SysCallReturnSubproc cmd));;
    mret (PyStr.readlines (remote_stdout (trace w) cmd)).

  (** ** Config materializer *)

  (** The body of the loop over the keys: the line after this key. *)
Definition render_key (dictObj : pydict) (line key : string) : M string :=
    if PyStr.startswith line (key +:+ "=") then
      v ← Dict.get dictObj key;
      mret (key +:+ "=" +:+ v +:+ PyStr.nl)
    else mret line.

(** The loop over the keys: the line as it is written. *)
Definition render_line (dictObj : pydict) (line : string) : M string :=
    for_fold (Dict.keys dictObj) line (render_key dictObj).

Definition copy_file_with_dict_values (srcFile destFile : string) (dictObj : pydict) : M unit :=
    w ← get;
    inlines ← match files w !! srcFile with
              | Some content => mret (PyStr.readlines content)
              | None => raise (IOError srcFile)
              end;
    modify (set_files (<[destFile := ""]>));;
    for_each inlines (λ line,
      line' ← render_line dictObj line;
      modify (set_files (λ fs, <[destFile := default "" (fs !! destFile) +:+ line']> fs))).

Definition scp_file_to_remote_host (clusterEntityConfigDictList : list pydict) : M unit :=
    for_each clusterEntityConfigDictList (λ clusterEntityConfigDict,
      hostname ← Dict.get clusterEntityConfigDict "hostname";
      w ← get;
      let testcasePathName := testCaseBaseDir (testcaseEnv w) in
      let cmdStr := "scp " +:+ testcasePathName +:+ "/config/* " +:+ hostname +:+ ":"
                    +:+ testcasePathName +:+ "/config" in
      logger_debug ("executing command [" +:+ cmdStr +:+ "]");;
      sys_call cmdStr).

  (** [tcCfg[k] = v] for the [i]-th dictionary of
      [testcaseEnv.testcaseConfigsList], which [tcCfg] aliases. *)
Definition tcCfg_set (i : nat) (k v : string) : M unit :=
    modify (set_testcaseEnv (set_testcaseConfigsList (λ l,
      match l !! i with
      | Some tcCfg => <[i := Dict.set tcCfg k v]> l
      | None => l
      end))).

  (** The first loop of [generate_overriden_props_files]. *)
Definition zkConnectStr_of (zkDictList tcConfigsList : list pydict) : M string :=
    for_fold zkDictList "" (λ zkConnectStr zkDict,
      entityID ← Dict.get zkDict "entity_id";
      hostname ← Dict.get zkDict "hostname";
      let clientPortList :=
        get_data_from_list_of_dicts tcConfigsList "entity_id" entityID "clientPort" in
      clientPort ← match clientPortList with
                   | x :: _ => mret x
                   | [] => raise IndexError
                   end;
      if decide (String.length zkConnectStr = 0) then
        mret (hostname +:+ ":" +:+ clientPort)
      else
        mret (zkConnectStr +:+ "," +:+ hostname +:+ ":" +:+ clientPort)).

  (** The body of the inner loop, for the [i]-th testcase configuration. *)
Definition materialize_entity (cfgTemplatePathname cfgDestPathname zkConnectStr : string)
      (clusterCfg : pydict) (cl_entity_id : string) (i : nat) : M unit :=
    w ← get;
    match testcaseConfigsList (testcaseEnv w) !! i with
    | None => mret tt
    | Some tcCfg =>
        tc_entity_id ← Dict.get tcCfg "entity_id";
        if decide (tc_entity_id = cl_entity_id) then
          role ← Dict.get clusterCfg "role";
          if decide (role = "broker") then
            tcCfg_set i "zk.connect" zkConnectStr;;
            let tcCfg := Dict.set tcCfg "zk.connect" zkConnectStr in
            config_filename ← Dict.get tcCfg "config_filename";
            copy_file_with_dict_values (cfgTemplatePathname +:+ "/server.properties")
              (cfgDestPathname +:+ "/" +:+ config_filename) tcCfg
          else if decide (role = "zookeeper") then
            config_filename ← Dict.get tcCfg "config_filename";
            copy_file_with_dict_values (cfgTemplatePathname +:+ "/zookeeper.properties")
              (cfgDestPathname +:+ "/" +:+ config_filename) tcCfg
          else if decide (role = "producer_performance") then
            tcCfg_set i "brokerinfo" ("zk.connect" +:+ "=" +:+ zkConnectStr);;
            let tcCfg := Dict.set tcCfg "brokerinfo" ("zk.connect" +:+ "=" +:+ zkConnectStr) in
            config_filename ← Dict.get tcCfg "config_filename";
            copy_file_with_dict_values (cfgTemplatePathname +:+ "/producer_performance.properties")
              (cfgDestPathname +:+ "/" +:+ config_filename) tcCfg
          else if decide (role = "console_consumer") then
            tcCfg_set i "zookeeper" zkConnectStr;;
            let tcCfg := Dict.set tcCfg "zookeeper" zkConnectStr in
            config_filename ← Dict.get tcCfg "config_filename";
            copy_file_with_dict_values (cfgTemplatePathname +:+ "/console_consumer.properties")
              (cfgDestPathname +:+ "/" +:+ config_filename) tcCfg
          else
            print ("    =>  " +:+ repr_pydict tcCfg);;
            print "UNHANDLED key"
        else mret tt
    end.

Definition generate_overriden_props_files (testsuitePathname : string)
      (systemTestEnv : SystemTestEnv) : M unit :=
    logger_info "calling generate_properties_files";;
    w ← get;
    let clusterConfigsList := clusterEntityConfigDictList systemTestEnv in
    let tcPathname := testCaseBaseDir (testcaseEnv w) in
    let tcConfigsList := testcaseConfigsList (testcaseEnv w) in
    let cfgTemplatePathname := abspath (testsuitePathname +:+ "/config") in
    let cfgDestPathname := abspath (tcPathname +:+ "/config") in
    logger_info ("config template (source) pathname : " +:+ cfgTemplatePathname);;
    logger_info ("testcase config (dest)   pathname : " +:+ cfgDestPathname);;
    let zkDictList := get_dict_from_list_of_dicts clusterConfigsList "role" "zookeeper" in
    zkConnectStr ← zkConnectStr_of zkDictList tcConfigsList;
    for_each clusterConfigsList (λ clusterCfg,
      cl_entity_id ← Dict.get clusterCfg "entity_id";
      for_each (seq 0 (length tcConfigsList)) (λ i,
        materialize_entity cfgTemplatePathname cfgDestPathname zkConnectStr
          clusterCfg cl_entity_id i));;
    scp_file_to_remote_host clusterConfigsList.

(** ** Process lifecycle manager *)

(** The loop that reads the pid marker back: [register] is what the
    caller does with the token after [pid:]. *)
Definition read_back_pid (lines : list string) (register : string → M unit) : M unit :=
  for_each lines (λ line,
    if PyStr.startswith line "pid" then
      let line := PyStr.rstrip_nl line in
      logger_debug ("found pid line: [" +:+ line +:+ "]");;
      let tokens := PyStr.split ":" line in
      match tokens !! 1 with
      | Some pid => register pid
      | None => raise IndexError
      end
    else mret tt).

Definition start_metrics_collection (jmxHost jmxPort mBeanObjectName mBeanAttributes
    entityId : string) (clusterEntityConfigDictList : list pydict) : M unit :=
  logger_info ("starting metrics collection on jmx port: " +:+ jmxPort);;
  let jmxUrl := "service:jmx:rmi:///jndi/rmi://" +:+ jmxHost +:+ ":" +:+ jmxPort +:+ "/jmxrmi" in
  let kafkaHome := get_data_by_lookup_keyval clusterEntityConfigDictList "entity_id" entityId "kafka_home" in
  let javaHome := get_data_by_lookup_keyval clusterEntityConfigDictList "entity_id" entityId "java_home" in
  metricsPathName ← get_testcase_config_log_dir_pathname "broker" entityId "metrics";
  javaHome ← str javaHome;
  kafkaHome ← str kafkaHome;
  let startMetricsCmdList :=
    ["ssh " +:+ jmxHost;
     "'JAVA_HOME=" +:+ javaHome;
     "JMX_PORT= " +:+ kafkaHome +:+ "/bin/kafka-run-class.sh kafka.tools.JmxTool";
     "--jmx-url " +:+ jmxUrl;
     "--object-name " +:+ mBeanObjectName +:+ " &> ";
     metricsPathName +:+ "/metrics.csv & echo pid:$! > ";
     metricsPathName +:+ "/entity_pid'"] in
  let startMetricsCommand := PyStr.join " " startMetricsCmdList in
  logger_debug ("executing command: [" +:+ startMetricsCommand +:+ "]");;
  async_sys_call startMetricsCommand;;
  let pidCmdStr := "ssh " +:+ jmxHost +:+ " 'cat " +:+ metricsPathName +:+ "/entity_pid'" in
  logger_debug ("executing command: [" +:+ pidCmdStr +:+ "]");;
  lines ← sys_call_return_subproc_lines pidCmdStr;
  read_back_pid lines (λ thisPid,
    modify (set_testcaseEnv (set_entityParentPidDict (<[thisPid := thisPid]>)))).

Definition start_entity_in_background (systemTestEnv : SystemTestEnv) (entityId : string) : M unit :=
  w ← get;
  let clusterEntityConfigDictList := clusterEntityConfigDictList systemTestEnv in
  let hostname := get_data_by_lookup_keyval clusterEntityConfigDictList "entity_id" entityId "hostname" in
  let role := get_data_by_lookup_keyval clusterEntityConfigDictList "entity_id" entityId "role" in
  let kafkaHome := get_data_by_lookup_keyval clusterEntityConfigDictList "entity_id" entityId "kafka_home" in
  let javaHome := get_data_by_lookup_keyval clusterEntityConfigDictList "entity_id" entityId "java_home" in
  let jmxPort := get_data_by_lookup_keyval clusterEntityConfigDictList "entity_id" entityId "jmx_port" in
  let testcaseConfigsList := testcaseConfigsList (testcaseEnv w) in
  let clientPort := get_data_by_lookup_keyval testcaseConfigsList "entity_id" entityId "clientPort" in
  let configFile := get_data_by_lookup_keyval testcaseConfigsList "entity_id" entityId "config_filename" in
  let logFile := get_data_by_lookup_keyval testcaseConfigsList "entity_id" entityId "log_filename" in
  role ← str role;
  hostname ← str hostname;
  clientPort ← str clientPort;
  logger_info ("starting " +:+ role +:+ " in host [" +:+ hostname +:+ "] on client port ["
               +:+ clientPort +:+ "]");;
  configPathName ← get_testcase_config_log_dir_pathname role entityId "config";
  logPathName ← get_testcase_config_log_dir_pathname role entityId "default";
  cmdList ←
    (if decide (role = "zookeeper") then
       javaHome ← str javaHome;
       kafkaHome ← str kafkaHome;
       configFile ← str configFile;
       logFile ← str logFile;
       let cmdList :=
         ["ssh " +:+ hostname;
          "'JAVA_HOME=" +:+ javaHome;
          kafkaHome +:+ "/bin/zookeeper-server-start.sh ";
          configPathName +:+ "/" +:+ configFile +:+ " &> ";
          logPathName +:+ "/" +:+ logFile +:+ " & echo pid:$! > ";
          logPathName +:+ "/entity_" +:+ entityId +:+ "_pid'"] in
       zkConnectStr ← userDefinedEnvVar "zkConnectStr";
       (if decide (0 < String.length zkConnectStr) then
          modify (set_testcaseEnv (set_userDefinedEnvVarDict
            (<["zkConnectStr" := zkConnectStr +:+ "," +:+ hostname +:+ ":" +:+ clientPort]>)))
        else
          modify (set_testcaseEnv (set_userDefinedEnvVarDict
            (<["zkConnectStr" := hostname +:+ ":" +:+ clientPort]>))) : M unit);;
       mret (Some cmdList)
     else if decide (role = "broker") then
       javaHome ← str javaHome;
       jmxPort ← str jmxPort;
       kafkaHome ← str kafkaHome;
       configFile ← str configFile;
       logFile ← str logFile;
       mret (Some
         ["ssh " +:+ hostname;
          "'JAVA_HOME=" +:+ javaHome;
          "JMX_PORT=" +:+ jmxPort;
          kafkaHome +:+ "/bin/kafka-run-class.sh kafka.Kafka";
          configPathName +:+ "/" +:+ configFile +:+ " &> ";
          logPathName +:+ "/" +:+ logFile +:+ " & echo pid:$! > ";
          logPathName +:+ "/entity_" +:+ entityId +:+ "_pid'"])
     else mret None) : M (option (list string));
  cmdList ← match cmdList with
            | Some l => mret l
            | None => raise (UnboundLocalError "cmdList")
            end;
  let cmdStr := PyStr.join " " cmdList in
  logger_debug ("executing command: [" +:+ cmdStr +:+ "]");;
  async_sys_call cmdStr;;
  sleep 5;;
  let pidCmdStr := "ssh " +:+ hostname +:+ " 'cat " +:+ logPathName +:+ "/entity_" +:+ entityId +:+ "_pid'" in
  logger_debug ("executing command: [" +:+ pidCmdStr +:+ "]");;
  lines ← sys_call_return_subproc_lines pidCmdStr;
  read_back_pid lines (λ pid,
    modify (set_testcaseEnv (set_entityParentPidDict (<[entityId := pid]>))));;
  if decide (role = "broker") then
    jmxPort ← str jmxPort;
    start_metrics_collection hostname jmxPort "kafka:type=kafka.SocketServerStats"
      "AvgFetchRequestMs, AvgProduceRequestMs" entityId clusterEntityConfigDictList
  else mret tt.

Definition start_zookeepers (systemTestEnv : SystemTestEnv) : M unit :=
  let clusterEntityConfigDictList := clusterEntityConfigDictList systemTestEnv in
  let zkEntityIdList :=
    get_data_from_list_of_dicts clusterEntityConfigDictList "role" "zookeeper" "entity_id" in
  for_each zkEntityIdList (λ zkEntityId, start_entity_in_background systemTestEnv zkEntityId).

Definition start_brokers (systemTestEnv : SystemTestEnv) : M unit :=
  let clusterEntityConfigDictList := clusterEntityConfigDictList systemTestEnv in
  let brokerEntityIdList :=
    get_data_from_list_of_dicts clusterEntityConfigDictList "role" "broker" "entity_id" in
  for_each brokerEntityIdList (λ brokerEntityId, start_entity_in_background systemTestEnv brokerEntityId).

(** [try: body except: handler] *)
Definition try_except {S A} (body : St S A) (handler : exn → St S A) : St S A := λ s,
  match body s with
  | (Ret a, s') => (Ret a, s')
  | (Raise e, s') => handler e s'
  end.

(** ** Log fact extractor *)

Definition dq : string := String "034"%char "".

(** The [try] block of [get_leader_elected_log_line], over the local
    [leaderDict]. *)
Definition leader_details (pattern : option string) (line : string)
    : St (gmap string pyval) unit :=
  pattern ← match pattern with
            | Some p => mret p
            | None => raise (KeyError "REGX_LEADER_ELECTION_PATTERN")
            end;
  matchObj ← lift_res (re_match pattern line);
  groups ← match matchObj with
           | Some g => mret g
           | None => raise AttributeError
           end;
  datetimeStr ← lift_res (group groups 1);
  unixTs ← match datetimeStr with
           | PStr s => match strptime_mktime s with
                       | Some t => mret t
                       | None => raise ValueError
                       end
           | _ => raise TypeError
           end;
  modify (<["timestamp" := PFloat unixTs]>);;
  g ← lift_res (group groups 2);
  modify (<["brokerid" := g]>);;
  g ← lift_res (group groups 3);
  modify (<["topic" := g]>);;
  g ← lift_res (group groups 4);
  modify (<["partition" := g]>).

(** The body of the loop over the lines that the remote [grep] printed. *)
Definition leader_line (leaderDict : gmap string pyval) (line : string)
    : M (gmap string pyval) :=
  let line := PyStr.rstrip_nl line in
  msg ← userDefinedEnvVar "LEADER_ELECTION_COMPLETED_MSG";
  if PyStr.contains msg line then
    logger_info ("found the log line : " +:+ line);;
    w ← get;
    let pattern := userDefinedEnvVarDict (testcaseEnv w) !! "REGX_LEADER_ELECTION_PATTERN" in
    match leader_details pattern line leaderDict with
    | (Ret _, leaderDict) => mret leaderDict
    | (Raise _, leaderDict) =>
        logger_error "ERROR [unable to find matching leader details: Has the matching pattern changed?]";;
        mret leaderDict
    end
  else mret leaderDict.

(** The body of the loop over the brokers. *)
Definition leader_of_broker (clusterEntityConfigDictList : list pydict)
    (leaderDict : gmap string pyval) (brokerEntityId : string) : M (gmap string pyval) :=
  w ← get;
  let hostname :=
    get_data_by_lookup_keyval clusterEntityConfigDictList "entity_id" brokerEntityId "hostname" in
  let logFile :=
    get_data_by_lookup_keyval (testcaseConfigsList (testcaseEnv w)) "entity_id" brokerEntityId
      "log_filename" in
  let leaderDict := <["entity_id" := PStr brokerEntityId]> leaderDict in
  let leaderDict := <["hostname" := pyval_of hostname]> leaderDict in
  logPathName ← get_testcase_config_log_dir_pathname "broker" brokerEntityId "default";
  hostname ← str hostname;
  msg ← userDefinedEnvVar "LEADER_ELECTION_COMPLETED_MSG";
  logFile ← str logFile;
  let cmdStrList :=
    ["ssh " +:+ hostname;
     dq +:+ "grep -i -h '" +:+ msg +:+ "' ";
     logPathName +:+ "/" +:+ logFile +:+ " | ";
     "sort | tail -1" +:+ dq] in
  let cmdStr := PyStr.join " " cmdStrList in
  logger_debug ("executing command [" +:+ cmdStr +:+ "]");;
  lines ← sys_call_return_subproc_lines cmdStr;
  for_fold lines leaderDict leader_line.

Definition get_leader_elected_log_line (systemTestEnv : SystemTestEnv)
    : M (gmap string pyval) :=
  logger_info "looking up leader...";;
  let leaderDict : gmap string pyval := ∅ in
  let clusterEntityConfigDictList := clusterEntityConfigDictList systemTestEnv in
  let brokerEntityIdList :=
    get_data_from_list_of_dicts clusterEntityConfigDictList "role" "broker" "entity_id" in
  for_fold brokerEntityIdList leaderDict (leader_of_broker clusterEntityConfigDictList).

(** [(.*?):] at the head of [s]: the shortest run of characters other
    than newline that a colon follows. *)
Fixpoint lazy_until_colon (s : string) : option string :=
  match s with
  | "" => None
  | String c r =>
      if decide (c = ":"%char) then Some ""
      else if decide (c = PyStr.nl_char) then None
      else String c <$> lazy_until_colon r
  end.

Fixpoint strip_prefix (p s : string) : option string :=
  match p, s with
  | "", _ => Some s
  | String a p', String b s' => if decide (a = b) then strip_prefix p' s' else None
  | String _ _, "" => None
  end.

(** [re.match('.*MessageID:(.*?):', line)]: group 1 of the match, [None]
    when the line does not match.  The greedy [.*] first takes the next
    character (any but a newline) and gives it back when the rest fails. *)
Fixpoint match_message_id (line : string) : option string :=
  match line with
  | "" => None
  | String c r =>
      match (if decide (c = PyStr.nl_char) then None else match_message_id r) with
      | Some g => Some g
      | None => strip_prefix "MessageID:" line ≫= lazy_until_colon
      end
  end.

Definition get_message_id (logPathName : string) : M (list string) :=
  w ← get;
  logLines ← match files w !! logPathName with
             | Some content => mret (PyStr.readlines content)
             | None => raise (IOError logPathName)
             end;
  for_fold logLines [] (λ messageIdList line,
    if negb (PyStr.contains "MessageID" line) then mret messageIdList
    else
      match match_message_id line with
      | Some g => mret (messageIdList ++ [g])
      | None => raise AttributeError
      end).

(** ** Validation engine *)

Definition validate_data_matched (systemTestEnv : SystemTestEnv) : M bool :=
  let clusterEntityConfigDictList := clusterEntityConfigDictList systemTestEnv in
  let producerEntityId :=
    get_data_by_lookup_keyval clusterEntityConfigDictList "role" "producer_performance" "entity_id" in
  let consumerEntityId :=
    get_data_by_lookup_keyval clusterEntityConfigDictList "role" "console_consumer" "entity_id" in
  consumerEntityId ← str consumerEntityId;
  logDir ← get_testcase_config_log_dir_pathname "console_consumer" consumerEntityId "default";
  let msgIdMissingInConsumerLogPathName := logDir +:+ "/msg_id_missing_in_consumer.log" in
  producerLogPathName ← userDefinedEnvVar "producerLogPathName";
  producerMsgIdList ← get_message_id producerLogPathName;
  consumerLogPathName ← userDefinedEnvVar "consumerLogPathName";
  consumerMsgIdList ← get_message_id consumerLogPathName;
  let producerMsgIdSet : gset string := list_to_set producerMsgIdList in
  let consumerMsgIdSet : gset string := list_to_set consumerMsgIdList in
  let missingMsgIdInConsumer := producerMsgIdSet ∖ consumerMsgIdSet in
  modify (set_files (<[msgIdMissingInConsumerLogPathName := ""]>));;
  for_each (elements missingMsgIdInConsumer) (λ id,
    modify (set_files (λ fs,
      <[msgIdMissingInConsumerLogPathName :=
          default "" (fs !! msgIdMissingInConsumerLogPathName) +:+ id +:+ PyStr.nl]> fs)));;
  logger_info ("no. of unique messages sent from publisher  : " +:+ pretty (size producerMsgIdSet));;
  logger_info ("no. of unique messages received by consumer : " +:+ pretty (size producerMsgIdSet));;
  if bool_decide (size missingMsgIdInConsumer = 0) && bool_decide (0 < size producerMsgIdSet) then
    modify (set_testcaseEnv (set_validationStatusDict (<["Validate for data matched" := "PASSED"]>)));;
    mret true
  else
    modify (set_testcaseEnv (set_validationStatusDict (<["Validate for data matched" := "FAILED"]>)));;
    logger_info ("See " +:+ msgIdMissingInConsumerLogPathName +:+ " for missing MessageID");;
    mret false.

(** [d[k]] on the leader dictionary *)
Definition leaderDict_get (d : gmap string pyval) (k : string) : M pyval :=
  match d !! k with
  | Some v => mret v
  | None => raise (KeyError k)
  end.

(** A value used as an operand of [+] with a string. *)
Definition str_of_pyval (v : pyval) : M string :=
  match v with
  | PStr s => mret s
  | _ => raise TypeError
  end.

(** The [try] block of [validate_leader_election_successful]. *)
Definition leader_info (leaderDict : gmap string pyval)
    (validationStatusDict : gmap string string) : M (bool * gmap string string) :=
  leaderBrokerId ← leaderDict_get leaderDict "brokerid";
  leaderEntityId ← leaderDict_get leaderDict "entity_id";
  w ← get;
  leaderPid ← match leaderEntityId with
              | PStr k => match entityParentPidDict (testcaseEnv w) !! k with
                          | Some pid => mret pid
                          | None => raise (KeyError k)
                          end
              | v => raise (KeyError (repr_key v))
              end;
  hostname ← leaderDict_get leaderDict "hostname";
  leaderEntityId ← str_of_pyval leaderEntityId;
  leaderBrokerId ← str_of_pyval leaderBrokerId;
  partition ← leaderDict_get leaderDict "partition";
  partition ← str_of_pyval partition;
  logger_info ("found leader in entity [" +:+ leaderEntityId +:+ "] with brokerid ["
               +:+ leaderBrokerId +:+ "] for partition [" +:+ partition +:+ "]");;
  mret (true, <["Validate leader election successful" := "PASSED"]> validationStatusDict).

(** The third parameter is the dictionary that the caller passes; the
    function answers with it as it has left it. *)
Definition validate_leader_election_successful (leaderDict : gmap string pyval)
    (validationStatusDict : gmap string string) : M (bool * gmap string string) :=
  if decide (0 < size leaderDict) then
    try_except (leader_info leaderDict validationStatusDict)
      (λ e,
       logger_error "leader info not completed:";;
       print (repr_leaderDict leaderDict);;
       print (str_exn e);;
       mret (false, <["Validate leader election successful" := "FAILED"]> validationStatusDict))
  else
    mret (false, <["Validate leader election successful" := "FAILED"]> validationStatusDict).

End with_collaborators.

(** ** A reference implementation of the collaborators

    Used to run the functions above on concrete topologies. *)

(** Modelled from the spec: [system_test_utils.get_dict_from_list_of_dicts]
    is not among the sources.  It locates the dictionaries of a list
    whose entry [lookupKey] is [lookupVal], in the order of the list (the
    spec's "topology iteration order"). *)
Definition ref_get_dict_from_list_of_dicts (listOfDict : list pydict)
    (lookupKey lookupVal : string) : list pydict :=
  filter (λ d, Dict.lookup d lookupKey = Some lookupVal) listOfDict.

(** Modelled from the spec: [system_test_utils.get_data_from_list_of_dicts]
    is not among the sources.  It gives the field [fieldToRetrieve] of
    every dictionary that [ref_get_dict_from_list_of_dicts] locates and
    that has the field. *)
Definition ref_get_data_from_list_of_dicts (listOfDict : list pydict)
    (lookupKey lookupVal fieldToRetrieve : string) : list string :=
  omap (λ d, Dict.lookup d fieldToRetrieve)
    (ref_get_dict_from_list_of_dicts listOfDict lookupKey lookupVal).

(** Modelled from the spec: [system_test_utils.get_data_by_lookup_keyval]
    is not among the sources.  It gives the field of the first matching
    dictionary (entity ids are unique, so there is one match at most for
    a query by [entity_id]). *)
Definition ref_get_data_by_lookup_keyval (listOfDict : list pydict)
    (lookupKey lookupVal fieldToRetrieve : string) : option string :=
  head (ref_get_data_from_list_of_dicts listOfDict lookupKey lookupVal fieldToRetrieve).

(** The reference queries over remote hosts that answer [stdout]. *)
Definition ref_utils (stdout : list event → string → string) : SystemTestUtils :=
  {| get_data_from_list_of_dicts := ref_get_data_from_list_of_dicts;
     get_dict_from_list_of_dicts := ref_get_dict_from_list_of_dicts;
     get_data_by_lookup_keyval := ref_get_data_by_lookup_keyval;
     remote_stdout := stdout |}.

(** A Python library whose [re.match] and [strptime] are the given
    functions and whose paths are absolute already. *)
Definition ref_pylib (re : string → string → res (option (list (option string))))
    (ts : string → option Z) : PyLib :=
  {| abspath := id; re_match := re; strptime_mktime := ts |}.

(** A printer that shows a placeholder for every value; it serves to run
    the functions that print on concrete inputs, in statements that do
    not depend on the printed text. *)
Definition placeholder_print : PyPrint :=
  {| repr_pydict := λ _, "<dict>"; repr_leaderDict := λ _, "<leaderDict>";
     repr_key := λ _, "<key>"; str_exn := λ _, "<exception>" |}.

(** Remote hosts on which every command prints nothing. *)
Definition silent : list event → string → string := λ _ _, "".

(** A library in which no pattern matches. *)
Definition no_match_pylib : PyLib := ref_pylib (λ _ _, Ret None) (λ _, None).

Definition empty_env (base logs : string) : TestcaseEnv :=
  {| testCaseBaseDir := base; testCaseLogsDir := logs; testcaseConfigsList := [];
     userDefinedEnvVarDict := ∅; entityParentPidDict := ∅; validationStatusDict := ∅ |}.

Definition world_of (env : TestcaseEnv) (fs : gmap string string) : World :=
  {| testcaseEnv := env; files := fs; logged := []; printed := []; trace := [] |}.

(** ** The words of the specification, for comparison *)

(** The key of a template line: the text before its first [=], when it
    has one. *)
Fixpoint key_of_line (line : string) : option string :=
  match line with
  | "" => None
  | String c r => if decide (c = "="%char) then Some "" else String c <$> key_of_line r
  end.

(** The line as the specification renders it: [key=value] and a newline
    when the key of the line is a key of the mapping, the line itself
    otherwise. *)
Definition rendered_by_key (dictObj : pydict) (line : string) : string :=
  match key_of_line line with
  | Some k =>
      match Dict.lookup dictObj k with
      | Some v => k +:+ "=" +:+ v +:+ PyStr.nl
      | None => line
      end
  | None => line
  end.

(** [''.join(l)] *)
Definition cat (l : list string) : string := foldr String.append "" l.

(** ** An example topology

    Three coordination nodes at [h1:2181], [h2:2181], [h3:2181], two
    brokers, one producer and one consumer. *)

Definition example_cluster : SystemTestEnv :=
  {| clusterEntityConfigDictList :=
       [ [("entity_id", "0"); ("hostname", "h1"); ("role", "zookeeper");
          ("kafka_home", "/kafka"); ("java_home", "/java")];
         [("entity_id", "1"); ("hostname", "h2"); ("role", "zookeeper");
          ("kafka_home", "/kafka"); ("java_home", "/java")];
         [("entity_id", "2"); ("hostname", "h3"); ("role", "zookeeper");
          ("kafka_home", "/kafka"); ("java_home", "/java")];
         [("entity_id", "3"); ("hostname", "h4"); ("role", "broker");
          ("kafka_home", "/kafka"); ("java_home", "/java"); ("jmx_port", "9990")];
         [("entity_id", "4"); ("hostname", "h5"); ("role", "broker");
          ("kafka_home", "/kafka"); ("java_home", "/java"); ("jmx_port", "9991")];
         [("entity_id", "5"); ("hostname", "h6"); ("role", "producer_performance");
          ("kafka_home", "/kafka"); ("java_home", "/java")];
         [("entity_id", "6"); ("hostname", "h6"); ("role", "console_consumer");
          ("kafka_home", "/kafka"); ("java_home", "/java")] ] |}.

Definition example_testcaseConfigsList : list pydict :=
  [ [("entity_id", "0"); ("clientPort", "2181"); ("dataDir", "/tmp/zookeeper_0");
     ("log_filename", "zookeeper_0.log"); ("config_filename", "zookeeper_0.properties")];
    [("entity_id", "1"); ("clientPort", "2181"); ("dataDir", "/tmp/zookeeper_1");
     ("log_filename", "zookeeper_1.log"); ("config_filename", "zookeeper_1.properties")];
    [("entity_id", "2"); ("clientPort", "2181"); ("dataDir", "/tmp/zookeeper_2");
     ("log_filename", "zookeeper_2.log"); ("config_filename", "zookeeper_2.properties")];
    [("entity_id", "3"); ("port", "9091"); ("brokerid", "1"); ("log.dir", "/tmp/kafka_server_1_logs");
     ("log_filename", "kafka_server_9091.log"); ("config_filename", "kafka_server_9091.properties")];
    [("entity_id", "4"); ("port", "9092"); ("brokerid", "2"); ("log.dir", "/tmp/kafka_server_2_logs");
     ("log_filename", "kafka_server_9092.log"); ("config_filename", "kafka_server_9092.properties")];
    [("entity_id", "5"); ("topic", "test_1"); ("log_filename", "producer_performance.log");
     ("config_filename", "producer_performance.properties")];
    [("entity_id", "6"); ("topic", "test_1"); ("log_filename", "console_consumer.log");
     ("config_filename", "console_consumer.properties")] ].

Definition example_env : TestcaseEnv :=
  {| testCaseBaseDir := "/tc"; testCaseLogsDir := "/tc/logs";
     testcaseConfigsList := example_testcaseConfigsList;
     userDefinedEnvVarDict :=
       {[ "zkConnectStr" := "";
          "LEADER_ELECTION_COMPLETED_MSG" := "completed the leader state transition";
          "REGX_LEADER_ELECTION_PATTERN" := "\[(.*?)\] .* Broker (.*?) completed the leader state transition for topic (.*?) partition (.*?) \(.*";
          "producerLogPathName" := "/tc/logs/producer_performance-5/producer_performance.log";
          "consumerLogPathName" := "/tc/logs/console_consumer-6/console_consumer.log" ]};
     entityParentPidDict := ∅;
     validationStatusDict := ∅ |}.

(** A producer that sent the messages [0000000001] and [0000000002]. *)
Definition example_producer_log : string :=
  "Topic:test_1:ThreadID:0:MessageID:0000000001:xxxxxxxxxx" +:+ PyStr.nl +:+
  "start producing 2 messages" +:+ PyStr.nl +:+
  "Topic:test_1:ThreadID:0:MessageID:0000000002:xxxxxxxxxx" +:+ PyStr.nl.

(** A consumer that received both, the first twice. *)
Definition example_consumer_log_all : string :=
  "Topic:test_1:ThreadID:0:MessageID:0000000001:xxxxxxxxxx" +:+ PyStr.nl +:+
  "Topic:test_1:ThreadID:0:MessageID:0000000002:xxxxxxxxxx" +:+ PyStr.nl +:+
  "Topic:test_1:ThreadID:0:MessageID:0000000001:xxxxxxxxxx" +:+ PyStr.nl.

(** A consumer that received the first only. *)
Definition example_consumer_log_one : string :=
  "Topic:test_1:ThreadID:0:MessageID:0000000001:xxxxxxxxxx" +:+ PyStr.nl.

Definition example_world (consumer_log : string) : World :=
  world_of example_env
    {[ "/tc/logs/producer_performance-5/producer_performance.log" := example_producer_log;
       "/tc/logs/console_consumer-6/console_consumer.log" := consumer_log ]}.

(** The leader dictionary holds all that [validate_leader_election_successful]
    reads: the strings [brokerid], [entity_id] and [partition], a
    [hostname], and a process id is on record for the entity. *)
Definition leader_info_complete (pids : gmap string string)
    (leaderDict : gmap string pyval) : Prop :=
  ∃ brokerid entity_id pid hostname partition,
    leaderDict !! "brokerid" = Some (PStr brokerid)
    ∧ leaderDict !! "entity_id" = Some (PStr entity_id)
    ∧ pids !! entity_id = Some pid
    ∧ leaderDict !! "hostname" = Some hostname
    ∧ leaderDict !! "partition" = Some (PStr partition).

(** ** The pid marker, for the statements about registration *)

(** The token that the read-back takes from a pid line. *)
Definition pid_token (line : string) : option string :=
  PyStr.split ":" (PyStr.rstrip_nl line) !! 1.

Definition pid_lines (lines : list string) : list string :=
  filter (λ l, PyStr.startswith l "pid" = true) lines.

Definition pid_tokens (lines : list string) : list string :=
  omap pid_token (pid_lines lines).

(** Every line of the output that starts with [pid] has a colon. *)
Definition marker_ok (out : string) : Prop :=
  Forall (λ l, is_Some (pid_token l)) (pid_lines (PyStr.readlines out)).

(** The world after a read-back: the pid dictionary updated, the pid
    lines logged. *)
Definition with_pids_logged (f : gmap string string → gmap string string)
    (recs : list (level * string)) (w : World) : World :=
  {| testcaseEnv := set_entityParentPidDict f (testcaseEnv w); files := files w;
     logged := logged w ++ recs; printed := printed w; trace := trace w |}.

Definition found_pid_records (lines : list string) : list (level * string) :=
  (λ l, (DEBUG, "found pid line: [" +:+ PyStr.rstrip_nl l +:+ "]")) <$> pid_lines lines.

(** What one coordination node adds to the connection string. *)
Definition zk_append (zkConnectStr endpoint : string) : string :=
  if decide (0 < String.length zkConnectStr) then zkConnectStr +:+ "," +:+ endpoint
  else endpoint.

Definition endpoint (node : string * string * string) : string :=
  node.1.2 +:+ ":" +:+ node.2.

Section topology.
Context `{!SystemTestUtils}.

(** The entity [entityId] is a coordination node at [hostname:clientPort]
    that has all that its start reads. *)
Definition zookeeper_entity (systemTestEnv : SystemTestEnv) (tcConfigs : list pydict)
    (node : string * string * string) : Prop :=
  let cl := clusterEntityConfigDictList systemTestEnv in
  let '(entityId, hostname, clientPort) := node in
  get_data_by_lookup_keyval cl "entity_id" entityId "hostname" = Some hostname
  ∧ get_data_by_lookup_keyval cl "entity_id" entityId "role" = Some "zookeeper"
  ∧ is_Some (get_data_by_lookup_keyval cl "entity_id" entityId "kafka_home")
  ∧ is_Some (get_data_by_lookup_keyval cl "entity_id" entityId "java_home")
  ∧ get_data_by_lookup_keyval tcConfigs "entity_id" entityId "clientPort" = Some clientPort
  ∧ is_Some (get_data_by_lookup_keyval tcConfigs "entity_id" entityId "config_filename")
  ∧ is_Some (get_data_by_lookup_keyval tcConfigs "entity_id" entityId "log_filename").

End topology.

(** Remote hosts whose every marker holds the same pid. *)
Definition pid_answer (pid : string) : list event → string → string :=
  λ _ _, "pid:" +:+ pid +:+ PyStr.nl.

(** The command that reads the pid marker of an entity back. *)
Definition entity_pid_cmd (logsDir hostname role entityId : string) : string :=
  "ssh " +:+ hostname +:+ " 'cat " +:+ (logsDir +:+ "/" +:+ role +:+ "-" +:+ entityId)
  +:+ "/entity_" +:+ entityId +:+ "_pid'".

(** The command that reads the pid marker of a metrics collector back. *)
Definition metrics_pid_cmd (logsDir jmxHost entityId : string) : string :=
  "ssh " +:+ jmxHost +:+ " 'cat "
  +:+ (logsDir +:+ "/" +:+ "broker" +:+ "-" +:+ entityId +:+ "/metrics") +:+ "/entity_pid'".

(** The pid lines up to the first that has no colon, that one included. *)
Fixpoint pid_lines_read (pl : list string) : list string :=
  match pl with
  | [] => []
  | l :: r => match pid_token l with
              | Some _ => l :: pid_lines_read r
              | None => [l]
              end
  end.

(** The tokens of the pid lines before the first that has no colon. *)
Fixpoint pid_tokens_read (pl : list string) : list string :=
  match pl with
  | [] => []
  | l :: r => match pid_token l with
              | Some t => t :: pid_tokens_read r
              | None => []
              end
  end.

(** Remote hosts whose every marker holds a pid line without colon. *)
Definition no_colon_answer : list event → string → string :=
  λ _ _, "pid 4242" +:+ PyStr.nl.

(** The line that broker 1 logs when it has become the leader. *)
Definition example_election_line : string :=
  "[2014-01-01 00:00:00,500] INFO Broker 1 completed the leader state transition for topic test_1 partition 0 (kafka.server)".

(** Remote hosts on which the search of the log of the broker [3] prints
    the election line and every other command prints nothing. *)
Definition election_answer : list event → string → string :=
  λ _ cmd, if PyStr.contains "kafka_server_9091.log" cmd
           then example_election_line +:+ PyStr.nl else "".

(** Remote hosts on which every command prints the election line. *)
Definition election_everywhere : list event → string → string :=
  λ _ _, example_election_line +:+ PyStr.nl.

(** A library whose [re.match] finds the four groups of the election
    line in every line, and whose clock reads its timestamp. *)
Definition example_pylib : PyLib :=
  ref_pylib (λ _ _, Ret (Some [Some "2014-01-01 00:00:00,500"; Some "1"; Some "test_1"; Some "0"]))
    (λ _, Some 1388534400500000%Z).

(** * Properties *)

(** ** Path resolver *)

(** C9. For every environment, purpose [metrics] resolves to
    [<logsDir>/<role>-<entityId>/metrics], purpose [dashboards] to
    [<logsDir>/dashboards] whatever the role and the entity, and a purpose
    that is none of [metrics], [default], [dashboards], [config] logs two
    errors and returns, without raising, the path that purpose [default]
    resolves to, [<logsDir>/<role>-<entityId>]. *)
Theorem resolve_by_purpose (w : World) (role entityId type : string) :
  let logsDir := testCaseLogsDir (testcaseEnv w) in
  let defaultLogDir := logsDir +:+ "/" +:+ role +:+ "-" +:+ entityId in
  get_testcase_config_log_dir_pathname role entityId "metrics" w
    = (Ret (logsDir +:+ "/" +:+ role +:+ "-" +:+ entityId +:+ "/metrics"), w)
  ∧ get_testcase_config_log_dir_pathname role entityId "dashboards" w
    = (Ret (logsDir +:+ "/dashboards"), w)
  ∧ get_testcase_config_log_dir_pathname role entityId "default" w
    = (Ret defaultLogDir, w)
  ∧ (type ∉ ["metrics"; "default"; "dashboards"; "config"] →
     get_testcase_config_log_dir_pathname role entityId type w
     = (Ret defaultLogDir,
        add_logged (ERROR, "returning default log dir : " +:+ defaultLogDir)
          (add_logged (ERROR, "unrecognized log directory type : " +:+ type) w))).
Proof.
  intros logsDir defaultLogDir. repeat split.
  intros Hty. unfold get_testcase_config_log_dir_pathname.
  cbn. repeat case_decide; subst; try (exfalso; apply Hty; set_solver).
  reflexivity.
Qed.

(** ** Strings *)

Lemma str_app_cons (a : ascii) (s t : string) : String a s +:+ t = String a (s +:+ t).
Proof. reflexivity. Qed.

Lemma str_app_nil_l (s : string) : "" +:+ s = s.
Proof. reflexivity. Qed.

Lemma str_app_nil_r (s : string) : s +:+ "" = s.
Proof. induction s as [|a s IH]; [done|]. by rewrite str_app_cons, IH. Qed.

Lemma str_app_assoc (s t u : string) : (s +:+ t) +:+ u = s +:+ t +:+ u.
Proof. induction s as [|a s IH]; [done|]. by rewrite !str_app_cons, IH. Qed.

Lemma prefix_cons (a b : ascii) (s t : string) :
  String.prefix (String a s) (String b t) = bool_decide (a = b) && String.prefix s t.
Proof. cbn. destruct (ascii_dec a b); case_bool_decide; done. Qed.

Lemma prefix_nil (s : string) : String.prefix "" s = true.
Proof. by destruct s. Qed.

Lemma prefix_key_self (k r : string) : String.prefix (k +:+ "=") (k +:+ "=" +:+ r) = true.
Proof.
  induction k as [|a k IH].
  - rewrite !str_app_nil_l, str_app_cons, prefix_cons, prefix_nil. by rewrite bool_decide_eq_true_2.
  - rewrite 2!(str_app_cons a k), prefix_cons, IH. by rewrite bool_decide_eq_true_2.
Qed.

(** Two keys without [=] that both end at the first [=] of a line are the
    same key. *)
Lemma prefix_key_inj (k' k r : string) :
  PyStr.has_char "=" k' = false → PyStr.has_char "=" k = false →
  String.prefix (k' +:+ "=") (k +:+ "=" +:+ r) = true → k' = k.
Proof.
  revert k. induction k' as [|a k' IH]; intros [|b k]; cbn [PyStr.has_char];
    rewrite ?str_app_nil_l, ?str_app_cons, ?prefix_cons; intros Hk' Hk Hp.
  - done.
  - apply orb_false_elim in Hk as [Hb _]. apply andb_true_iff in Hp as [Hp _].
    apply bool_decide_eq_true in Hp. apply bool_decide_eq_false in Hb. congruence.
  - apply orb_false_elim in Hk' as [Ha _]. apply andb_true_iff in Hp as [Hp _].
    apply bool_decide_eq_true in Hp. apply bool_decide_eq_false in Ha. congruence.
  - apply orb_false_elim in Hk' as [_ Hk']. apply orb_false_elim in Hk as [_ Hk].
    apply andb_true_iff in Hp as [Hab Hp]. apply bool_decide_eq_true in Hab.
    f_equal; [done|]. by apply (IH k).
Qed.

Lemma no_eq_no_key_prefix (line k : string) :
  PyStr.has_char "=" line = false → String.prefix (k +:+ "=") line = false.
Proof.
  revert k. induction line as [|c line IH]; intros k; cbn [PyStr.has_char]; intros H.
  - by destruct k.
  - apply orb_false_elim in H as [Hc H]. apply bool_decide_eq_false in Hc.
    destruct k as [|a k].
    + rewrite str_app_nil_l, prefix_cons. rewrite bool_decide_eq_false_2; [done|congruence].
    + rewrite str_app_cons, prefix_cons, IH by done. apply andb_false_r.
Qed.

Lemma key_of_line_Some (line k : string) :
  key_of_line line = Some k →
  PyStr.has_char "=" k = false ∧ ∃ r, line = k +:+ "=" +:+ r.
Proof.
  revert k. induction line as [|c line IH]; intros k; cbn [key_of_line]; [done|].
  case_decide as Hc.
  - intros [= <-]. split; [done|]. exists line. by rewrite str_app_nil_l, Hc.
  - destruct (key_of_line line) as [k0|]; [|done]. intros [= <-].
    destruct (IH k0 eq_refl) as [Hk0 [r ->]]. split.
    + cbn [PyStr.has_char]. rewrite Hk0. by rewrite bool_decide_eq_false_2.
    + by exists r.
Qed.

Lemma key_of_line_None (line : string) :
  key_of_line line = None → PyStr.has_char "=" line = false.
Proof.
  induction line as [|c line IH]; cbn [key_of_line PyStr.has_char]; [done|].
  case_decide as Hc; [done|]. destruct (key_of_line line); [done|]. intros _.
  rewrite IH by done. by rewrite bool_decide_eq_false_2.
Qed.

Lemma Dict_lookup_keys (d : pydict) (k v : string) :
  Dict.lookup d k = Some v → k ∈ Dict.keys d.
Proof.
  induction d as [|[k' v'] d IH]; cbn; [done|]. case_decide as Hk.
  - intros _. subst. apply list_elem_of_here.
  - intros H. apply list_elem_of_further. by apply IH.
Qed.

Lemma Dict_keys_lookup (d : pydict) (k : string) :
  k ∈ Dict.keys d → is_Some (Dict.lookup d k).
Proof.
  induction d as [|[k' v'] d IH]; cbn.
  - intros H. by apply elem_of_nil in H.
  - intros H. case_decide as Hk; [by eexists|]. apply IH.
    apply elem_of_cons in H as [H|H]; [congruence|done].
Qed.

(** ** Config materializer *)

Lemma bind_Ret {S A B} (m : St S A) (f : A → St S B) (s s' : S) (a : A) :
  m s = (Ret a, s') → (m ≫= f) s = f a s'.
Proof. intros H. unfold mbind, St_bind. by rewrite H. Qed.

Lemma bind_Raise {S A B} (m : St S A) (f : A → St S B) (s s' : S) (e : exn) :
  m s = (Raise e, s') → (m ≫= f) s = (Raise e, s').
Proof. intros H. unfold mbind, St_bind. by rewrite H. Qed.

Lemma render_keys_no_match (dictObj : pydict) (ks : list string) (line : string) (w : World) :
  (∀ k, k ∈ ks → PyStr.startswith line (k +:+ "=") = false) →
  for_fold ks line (render_key dictObj) w = (Ret line, w).
Proof.
  induction ks as [|k ks IH]; intros H; [done|]. cbn [for_fold].
  rewrite (bind_Ret _ _ w w line).
  - apply IH. intros k' Hk'. apply H. by apply list_elem_of_further.
  - unfold render_key. rewrite H; [done|]. apply list_elem_of_here.
Qed.

(** The loop over keys without [=], on a line whose text before the first
    [=] is the key [k]: the line is [k=v] from the first time the loop
    meets [k], and no other key touches it. *)
Lemma render_keys_key (dictObj : pydict) (ks : list string) (k v r : string) (w : World) :
  (∀ k', k' ∈ ks → PyStr.has_char "=" k' = false) →
  PyStr.has_char "=" k = false →
  Dict.lookup dictObj k = Some v →
  for_fold ks (k +:+ "=" +:+ r) (render_key dictObj) w
  = (Ret (if bool_decide (k ∈ ks) then k +:+ "=" +:+ v +:+ PyStr.nl else k +:+ "=" +:+ r), w).
Proof.
  intros Hks Hk Hv. revert r. induction ks as [|k' ks IH]; intros r; [done|].
  cbn [for_fold].
  assert (Hks' : ∀ k', k' ∈ ks → PyStr.has_char "=" k' = false).
  { intros k0 Hk0. apply Hks. by apply list_elem_of_further. }
  destruct (decide (k' = k)) as [->|Hne].
  - rewrite (bind_Ret _ _ w w (k +:+ "=" +:+ v +:+ PyStr.nl)).
    + rewrite (IH Hks'). rewrite (bool_decide_eq_true_2 (k ∈ k :: ks)) by apply list_elem_of_here.
      by case_bool_decide.
    + unfold render_key, PyStr.startswith. rewrite prefix_key_self.
      unfold Dict.get. by rewrite Hv.
  - rewrite (bind_Ret _ _ w w (k +:+ "=" +:+ r)).
    + rewrite (IH Hks'). f_equal. f_equal.
      destruct (decide (k ∈ ks)) as [Hin|Hnin].
      * rewrite (bool_decide_eq_true_2 (k ∈ ks)) by done.
        by rewrite (bool_decide_eq_true_2 (k ∈ k' :: ks)) by (by apply list_elem_of_further).
      * rewrite (bool_decide_eq_false_2 (k ∈ ks)) by done.
        rewrite (bool_decide_eq_false_2 (k ∈ k' :: ks)); [done|].
        intros [?|?]%elem_of_cons; congruence.
    + unfold render_key, PyStr.startswith.
      destruct (String.prefix (k' +:+ "=") (k +:+ "=" +:+ r)) eqn:Hp; [|done].
      exfalso. apply Hne. apply (prefix_key_inj k' k r); [|done..].
      apply Hks. apply list_elem_of_here.
Qed.

(** When no key of the mapping contains [=], the loop over the keys
    renders a line as the specification says. *)
Lemma render_line_by_key (dictObj : pydict) (line : string) (w : World) :
  (∀ k, k ∈ Dict.keys dictObj → PyStr.has_char "=" k = false) →
  render_line dictObj line w = (Ret (rendered_by_key dictObj line), w).
Proof.
  intros Hks. unfold render_line, rendered_by_key.
  destruct (key_of_line line) as [k|] eqn:Hkey.
  - apply key_of_line_Some in Hkey as [Hk [r ->]].
    destruct (Dict.lookup dictObj k) as [v|] eqn:Hv.
    + rewrite (render_keys_key dictObj _ k v r w Hks Hk Hv).
      rewrite bool_decide_eq_true_2; [done|]. by eapply Dict_lookup_keys.
    + apply render_keys_no_match. intros k' Hk'. unfold PyStr.startswith.
      destruct (String.prefix (k' +:+ "=") (k +:+ "=" +:+ r)) eqn:Hp; [|done].
      apply prefix_key_inj in Hp; [|by apply Hks|done]. subst k'.
      apply Dict_keys_lookup in Hk' as [v' Hv']. congruence.
  - apply render_keys_no_match. intros k' _. unfold PyStr.startswith.
    apply no_eq_no_key_prefix. by apply key_of_line_None.
Qed.

Lemma set_files_insert_append (dest acc line : string) (w : World) :
  set_files (λ fs, <[dest := default "" (fs !! dest) +:+ line]> fs)
    (set_files (<[dest := acc]>) w)
  = set_files (<[dest := acc +:+ line]>) w.
Proof.
  unfold set_files; cbn. f_equal.
  by rewrite lookup_insert_eq, insert_insert_eq.
Qed.

(** The loop over the lines appends to the destination what the loop over
    the keys makes of each line. *)
Lemma copy_lines (dictObj : pydict) (f : string → string) (dest : string)
    (lines : list string) (acc : string) (w : World) :
  (∀ l w', render_line dictObj l w' = (Ret (f l), w')) →
  for_each lines (λ line,
    line' ← render_line dictObj line;
    modify (set_files (λ fs, <[dest := default "" (fs !! dest) +:+ line']> fs)))
    (set_files (<[dest := acc]>) w)
  = (Ret tt, set_files (<[dest := acc +:+ cat (f <$> lines)]>) w).
Proof.
  intros Hf. revert acc. induction lines as [|l lines IH]; intros acc.
  - cbn. by rewrite str_app_nil_r.
  - cbn [for_each]. unfold mbind at 1, St_bind at 1.
    rewrite (bind_Ret _ _ _ _ _ (Hf l _)). unfold modify.
    rewrite set_files_insert_append, IH. cbn. by rewrite str_app_assoc.
Qed.

(** C8, as the code has it. For every template file and every settings
    mapping none of whose keys contains [=], the copy holds the lines of
    the template in their order, each line whose key (the text before its
    first [=]) is a key of the mapping rewritten as [key=value] and a
    newline, every other line copied as it is. *)
Theorem copy_file_renders_by_key (srcFile destFile content : string)
    (dictObj : pydict) (w : World) :
  (∀ k, k ∈ Dict.keys dictObj → PyStr.has_char "=" k = false) →
  files w !! srcFile = Some content →
  copy_file_with_dict_values srcFile destFile dictObj w
  = (Ret tt,
     set_files (<[destFile := cat (rendered_by_key dictObj <$> PyStr.readlines content)]>) w)
  ∧ (∀ line k v, key_of_line line = Some k → Dict.lookup dictObj k = Some v →
       rendered_by_key dictObj line = k +:+ "=" +:+ v +:+ PyStr.nl)
  ∧ (∀ line, (∀ k, key_of_line line = Some k → Dict.lookup dictObj k = None) →
       rendered_by_key dictObj line = line).
Proof.
  intros Hks Hsrc. split; [|split].
  - unfold copy_file_with_dict_values. unfold mbind at 1, St_bind at 1. cbn [get].
    rewrite Hsrc. unfold mbind at 1, St_bind at 1, mret at 1, St_ret at 1.
    unfold mbind at 1, St_bind at 1, modify at 1.
    rewrite (copy_lines dictObj (rendered_by_key dictObj)).
    + by rewrite str_app_nil_l.
    + intros l w'. by apply render_line_by_key.
  - intros line k v Hk Hv. unfold rendered_by_key. by rewrite Hk, Hv.
  - intros line H. unfold rendered_by_key.
    destruct (key_of_line line) as [k|]; [|done]. by rewrite (H k eq_refl).
Qed.

(** The template line [zk.connect=OLD] under the mapping
    [{"zk.connect": "h1:2181,h2:2181"}], and a line without a matching key. *)
Lemma copy_file_renders_by_key_witness :
  let template := "zk.connect=OLD" +:+ PyStr.nl +:+ "brokerid=0" +:+ PyStr.nl in
  let w := world_of (empty_env "/tc" "/tc/logs") {["/suite/config/server.properties" := template]} in
  let dictObj := [("entity_id", "1"); ("zk.connect", "h1:2181,h2:2181")] in
  (copy_file_with_dict_values "/suite/config/server.properties" "/tc/config/server.properties"
     dictObj w
   = (Ret tt,
      set_files (<["/tc/config/server.properties" :=
                    cat (rendered_by_key dictObj <$> PyStr.readlines template)]>) w)
   ∧ (∀ line k v, key_of_line line = Some k → Dict.lookup dictObj k = Some v →
        rendered_by_key dictObj line = k +:+ "=" +:+ v +:+ PyStr.nl)
   ∧ (∀ line, (∀ k, key_of_line line = Some k → Dict.lookup dictObj k = None) →
        rendered_by_key dictObj line = line))
  ∧ cat (rendered_by_key dictObj <$> PyStr.readlines template)
    = "zk.connect=h1:2181,h2:2181" +:+ PyStr.nl +:+ "brokerid=0" +:+ PyStr.nl.
Proof.
  intros template w dictObj. split; [|vm_compute; reflexivity].
  apply copy_file_renders_by_key; [|vm_compute; reflexivity].
  intros k Hk. apply list_elem_of_In in Hk. cbn in Hk.
  destruct Hk as [<-|[<-|[]]]; reflexivity.
Defined.

(** C8 fails as it is stated when a key of the mapping contains [=]: the
    code rewrites every line that starts with [key=].  The line [a=b=c],
    whose key [a] is no key of [{"a=b": "2"}], is not copied as it is but
    becomes [a=b=2]; and the line [a=old] under
    [{"a": "b=x", "a=b": "2"}], enumerated in this order, becomes [a=b=x]
    at the key [a] and then [a=b=2] at the key [a=b], not [a=b=x]. *)
Lemma copy_file_key_with_eq_counterexample :
  (key_of_line ("a=b=c" +:+ PyStr.nl) = Some "a"
   ∧ Dict.lookup [("a=b", "2")] "a" = None
   ∧ files (copy_file_with_dict_values "/suite/config/server.properties"
              "/tc/config/server.properties" [("a=b", "2")]
              (world_of (empty_env "/tc" "/tc/logs")
                 {["/suite/config/server.properties" := "a=b=c" +:+ PyStr.nl]})).2
       !! "/tc/config/server.properties"
     = Some ("a=b=2" +:+ PyStr.nl))
  ∧ (key_of_line ("a=old" +:+ PyStr.nl) = Some "a"
     ∧ Dict.lookup [("a", "b=x"); ("a=b", "2")] "a" = Some "b=x"
     ∧ files (copy_file_with_dict_values "/suite/config/server.properties"
                "/tc/config/server.properties" [("a", "b=x"); ("a=b", "2")]
                (world_of (empty_env "/tc" "/tc/logs")
                   {["/suite/config/server.properties" := "a=old" +:+ PyStr.nl]})).2
         !! "/tc/config/server.properties"
       = Some ("a=b=2" +:+ PyStr.nl)).
Proof. repeat split; vm_compute; reflexivity. Qed.

(** ** Validation engine: data matched *)

(** One step of a computation in [M]: the first action returns. *)
Ltac run_with H := erewrite (@bind_Ret World _ _ _ _ _ _ _ H).
Ltac run := erewrite (@bind_Ret World) by reflexivity.

Lemma userDefinedEnvVar_Some (k v : string) (w : World) :
  userDefinedEnvVarDict (testcaseEnv w) !! k = Some v →
  userDefinedEnvVar k w = (Ret v, w).
Proof. intros H. unfold userDefinedEnvVar. run. by rewrite H. Qed.

Lemma resolve_default (role entityId : string) (w : World) :
  get_testcase_config_log_dir_pathname role entityId "default" w
  = (Ret (testCaseLogsDir (testcaseEnv w) +:+ "/" +:+ role +:+ "-" +:+ entityId), w).
Proof. reflexivity. Qed.

(** The loop that writes the missing ids, one to a line. *)
Lemma write_ids (path : string) (ids : list string) (acc : string) (w : World) :
  for_each ids (λ id,
    modify (set_files (λ fs, <[path := default "" (fs !! path) +:+ id +:+ PyStr.nl]> fs)))
    (set_files (<[path := acc]>) w)
  = (Ret tt, set_files (<[path := acc +:+ cat ((λ id, id +:+ PyStr.nl) <$> ids)]>) w).
Proof.
  revert acc. induction ids as [|id ids IH]; intros acc.
  - cbn. by rewrite str_app_nil_r.
  - cbn [for_each]. unfold mbind at 1, St_bind at 1, modify at 1.
    rewrite set_files_insert_append, IH. cbn. by rewrite str_app_assoc.
Qed.

Section data_matched.
Context `{!SystemTestUtils}.

(** What [validate_data_matched] does when both logs can be read: the
    file of missing ids, the two records, the status, the answer. *)
Lemma validate_data_matched_run (systemTestEnv : SystemTestEnv) (w : World)
    (consumerEntityId producerLog consumerLog : string) (Pl Cl : list string) :
  get_data_by_lookup_keyval (clusterEntityConfigDictList systemTestEnv)
    "role" "console_consumer" "entity_id" = Some consumerEntityId →
  userDefinedEnvVarDict (testcaseEnv w) !! "producerLogPathName" = Some producerLog →
  userDefinedEnvVarDict (testcaseEnv w) !! "consumerLogPathName" = Some consumerLog →
  get_message_id producerLog w = (Ret Pl, w) →
  get_message_id consumerLog w = (Ret Cl, w) →
  let P : gset string := list_to_set Pl in
  let C : gset string := list_to_set Cl in
  let path := (testCaseLogsDir (testcaseEnv w) +:+ "/" +:+ "console_consumer" +:+ "-"
               +:+ consumerEntityId) +:+ "/msg_id_missing_in_consumer.log" in
  let w1 := set_files (<[path := cat ((λ id, id +:+ PyStr.nl) <$> elements (P ∖ C))]>) w in
  let w2 :=
    add_logged (INFO, "no. of unique messages received by consumer : " +:+ pretty (size P))
      (add_logged (INFO, "no. of unique messages sent from publisher  : " +:+ pretty (size P)) w1) in
  validate_data_matched systemTestEnv w
  = if bool_decide (size (P ∖ C) = 0) && bool_decide (0 < size P) then
      (Ret true,
       set_testcaseEnv (set_validationStatusDict (<["Validate for data matched" := "PASSED"]>)) w2)
    else
      (Ret false,
       add_logged (INFO, "See " +:+ path +:+ " for missing MessageID")
         (set_testcaseEnv (set_validationStatusDict (<["Validate for data matched" := "FAILED"]>)) w2)).
Proof.
  intros Hcons Hpl Hcl HP HC P C path w1 w2.
  unfold validate_data_matched. rewrite Hcons.
  run. run_with (resolve_default "console_consumer" consumerEntityId w).
  run_with (userDefinedEnvVar_Some _ _ _ Hpl). run_with HP.
  run_with (userDefinedEnvVar_Some _ _ _ Hcl). run_with HC.
  run. fold P C path.
  erewrite (bind_Ret _ _ _ _ _ (write_ids path _ "" w)).
  rewrite str_app_nil_l. fold w1.
  run. run. fold w2.
  destruct (bool_decide (size (P ∖ C) = 0) && bool_decide (0 < size P)); reflexivity.
Qed.

(** C1. When both logs can be read, with [P] the set of the producer's
    message ids and [C] the set of the consumer's, [validate_data_matched]
    returns, records [PASSED] exactly when it answers [True] and [FAILED]
    otherwise, and answers [True] if and only if [P - C] is empty and [P]
    is not; so an empty [P] fails whatever [C] is. *)
Theorem data_matched_passed_iff (systemTestEnv : SystemTestEnv) (w : World)
    (consumerEntityId producerLog consumerLog : string) (Pl Cl : list string) :
  get_data_by_lookup_keyval (clusterEntityConfigDictList systemTestEnv)
    "role" "console_consumer" "entity_id" = Some consumerEntityId →
  userDefinedEnvVarDict (testcaseEnv w) !! "producerLogPathName" = Some producerLog →
  userDefinedEnvVarDict (testcaseEnv w) !! "consumerLogPathName" = Some consumerLog →
  get_message_id producerLog w = (Ret Pl, w) →
  get_message_id consumerLog w = (Ret Cl, w) →
  let P : gset string := list_to_set Pl in
  let C : gset string := list_to_set Cl in
  ∃ (b : bool) (w' : World),
    validate_data_matched systemTestEnv w = (Ret b, w')
    ∧ validationStatusDict (testcaseEnv w') !! "Validate for data matched"
      = Some (if b then "PASSED" else "FAILED")
    ∧ (b = true ↔ P ∖ C = ∅ ∧ P ≠ ∅)
    ∧ (P = ∅ → b = false).
Proof.
  intros Hcons Hpl Hcl HP HC P C.
  rewrite (validate_data_matched_run _ _ _ _ _ _ _ Hcons Hpl Hcl HP HC). fold P C.
  assert (Hb : bool_decide (size (P ∖ C) = 0) && bool_decide (0 < size P) = true
               ↔ P ∖ C = ∅ ∧ P ≠ ∅).
  { rewrite andb_true_iff, !bool_decide_eq_true.
    rewrite size_empty_iff, <-Nat.neq_0_lt_0, size_non_empty_iff.
    by unfold_leibniz. }
  destruct (bool_decide (size (P ∖ C) = 0) && bool_decide (0 < size P)) eqn:Hbd.
  - eexists true, _. split; [reflexivity|]. split; [apply lookup_insert_eq|].
    split; [done|]. intros HPe. by destruct (proj1 Hb eq_refl) as [_ HPne].
  - eexists false, _. split; [reflexivity|]. split; [apply lookup_insert_eq|].
    split; [|done]. split; [done|]. intros HPC. by apply Hb in HPC.
Qed.

(** C6. When both logs can be read and [P] is not included in [C],
    [validate_data_matched] answers [False], records [FAILED], and leaves
    in the file of missing ids exactly the elements of [P - C], each once
    and each followed by a newline. *)
Theorem data_unmatched_failed_and_logged (systemTestEnv : SystemTestEnv) (w : World)
    (consumerEntityId producerLog consumerLog : string) (Pl Cl : list string) :
  get_data_by_lookup_keyval (clusterEntityConfigDictList systemTestEnv)
    "role" "console_consumer" "entity_id" = Some consumerEntityId →
  userDefinedEnvVarDict (testcaseEnv w) !! "producerLogPathName" = Some producerLog →
  userDefinedEnvVarDict (testcaseEnv w) !! "consumerLogPathName" = Some consumerLog →
  get_message_id producerLog w = (Ret Pl, w) →
  get_message_id consumerLog w = (Ret Cl, w) →
  let P : gset string := list_to_set Pl in
  let C : gset string := list_to_set Cl in
  ¬ P ⊆ C →
  ∃ (w' : World) (ids : list string),
    validate_data_matched systemTestEnv w = (Ret false, w')
    ∧ validationStatusDict (testcaseEnv w') !! "Validate for data matched" = Some "FAILED"
    ∧ files w' !! ((testCaseLogsDir (testcaseEnv w) +:+ "/" +:+ "console_consumer" +:+ "-"
                    +:+ consumerEntityId) +:+ "/msg_id_missing_in_consumer.log")
      = Some (cat ((λ id, id +:+ PyStr.nl) <$> ids))
    ∧ NoDup ids
    ∧ (∀ id, id ∈ ids ↔ id ∈ P ∖ C)
    ∧ (∀ id, id ∈ ids ↔ id ∈ Pl ∧ id ∉ Cl).
Proof.
  intros Hcons Hpl Hcl HP HC P C Hsub.
  rewrite (validate_data_matched_run _ _ _ _ _ _ _ Hcons Hpl Hcl HP HC). fold P C.
  rewrite (bool_decide_eq_false_2 (size (P ∖ C) = 0)).
  2:{ rewrite size_empty_iff. intros He. apply Hsub. by apply empty_difference_subseteq. }
  cbn [andb]. eexists _, (elements (P ∖ C)). split; [reflexivity|].
  split; [apply lookup_insert_eq|]. split; [apply lookup_insert_eq|].
  split; [apply NoDup_elements|]. split.
  - intros id. apply elem_of_elements.
  - intros id. rewrite elem_of_elements, elem_of_difference.
    unfold P, C. by rewrite !elem_of_list_to_set.
Qed.

End data_matched.

(** C1 on the example: the consumer received both messages. *)
Lemma data_matched_passed_iff_witness :
  let P : gset string := list_to_set ["0000000001"; "0000000002"] in
  let C : gset string := list_to_set ["0000000001"; "0000000002"; "0000000001"] in
  ∃ (b : bool) (w' : World),
    @validate_data_matched (ref_utils silent) example_cluster
      (example_world example_consumer_log_all) = (Ret b, w')
    ∧ validationStatusDict (testcaseEnv w') !! "Validate for data matched"
      = Some (if b then "PASSED" else "FAILED")
    ∧ (b = true ↔ P ∖ C = ∅ ∧ P ≠ ∅)
    ∧ (P = ∅ → b = false).
Proof.
  apply (@data_matched_passed_iff (ref_utils silent) example_cluster
           (example_world example_consumer_log_all) "6"
           "/tc/logs/producer_performance-5/producer_performance.log"
           "/tc/logs/console_consumer-6/console_consumer.log");
    vm_compute; reflexivity.
Defined.

(** C6 on the example: the consumer missed the second message. *)
Lemma data_unmatched_failed_and_logged_witness :
  let P : gset string := list_to_set ["0000000001"; "0000000002"] in
  let C : gset string := list_to_set ["0000000001"] in
  ∃ (w' : World) (ids : list string),
    @validate_data_matched (ref_utils silent) example_cluster
      (example_world example_consumer_log_one) = (Ret false, w')
    ∧ validationStatusDict (testcaseEnv w') !! "Validate for data matched" = Some "FAILED"
    ∧ files w' !! (("/tc/logs" +:+ "/" +:+ "console_consumer" +:+ "-" +:+ "6")
                   +:+ "/msg_id_missing_in_consumer.log")
      = Some (cat ((λ id, id +:+ PyStr.nl) <$> ids))
    ∧ NoDup ids
    ∧ (∀ id, id ∈ ids ↔ id ∈ P ∖ C)
    ∧ (∀ id, id ∈ ids ↔ id ∈ ["0000000001"; "0000000002"] ∧ id ∉ ["0000000001"]).
Proof.
  apply (@data_unmatched_failed_and_logged (ref_utils silent) example_cluster
           (example_world example_consumer_log_one) "6"
           "/tc/logs/producer_performance-5/producer_performance.log"
           "/tc/logs/console_consumer-6/console_consumer.log");
    try (vm_compute; reflexivity).
  intros Hsub. specialize (Hsub "0000000002").
  rewrite !elem_of_list_to_set in Hsub.
  assert (H2 : "0000000002" ∈ ["0000000001"]) by (apply Hsub; set_solver).
  apply list_elem_of_In in H2. cbn in H2. destruct H2 as [[=]|[]].
Defined.

(** ** Validation engine: leader election *)

(** A branch of the check in which the [try] block raises. *)
Ltac leader_fails :=
  eexists false, _; split; [reflexivity|]; cbn; split;
  [ split; [done|]; intros (?&?&?&?&?&?&?&?&?&?); congruence
  | split; [done|]; intros _ _; eexists; split; [reflexivity|]; split; [done|];
    by rewrite <-(assoc_L (++)) ].

Section leader_election.
Context `{!PyPrint}.

(** C2, as the code has it. [validate_leader_election_successful] always
    returns (no exception leaves it), records [PASSED] when it answers
    [True] and [FAILED] when it answers [False], and answers [True] if and
    only if the leader dictionary holds the strings [brokerid],
    [entity_id] and [partition] and a [hostname], and a process id is on
    record in [entityParentPidDict] for that [entity_id]; when it answers
    [False] on a dictionary that is not empty, the [try] block has raised
    an exception, one error record is logged, and the dictionary and
    that exception are printed. *)
Theorem leader_election_passed_iff (leaderDict : gmap string pyval)
    (validationStatusDict : gmap string string) (w : World) :
  ∃ (b : bool) (w' : World),
    validate_leader_election_successful leaderDict validationStatusDict w
    = (Ret (b, <["Validate leader election successful" := if b then "PASSED" else "FAILED"]>
                 validationStatusDict), w')
    ∧ (b = true ↔ leader_info_complete (entityParentPidDict (testcaseEnv w)) leaderDict)
    ∧ testcaseEnv w' = testcaseEnv w
    ∧ (b = false → leaderDict ≠ ∅ →
       ∃ e, (leader_info leaderDict validationStatusDict w).1 = Raise e
            ∧ logged w' = logged w ++ [(ERROR, "leader info not completed:")]
            ∧ printed w' = printed w ++ [repr_leaderDict leaderDict; str_exn e]).
Proof.
  unfold validate_leader_election_successful, leader_info_complete.
  case_decide as Hsize.
  2:{ exists false, w. split; [reflexivity|]. split; [|split; [done|]].
      - split; [done|]. intros (?&?&?&?&?&Hb&_). exfalso.
        assert (leaderDict = ∅) as -> by (apply map_size_empty_iff; lia). done.
      - intros _ Hne. exfalso. apply Hne. apply map_size_empty_iff. lia. }
  unfold try_except, leader_info, leaderDict_get, str_of_pyval, logger_info, logger_error,
    print, modify, get, raise, mbind, St_bind, mret, St_ret.
  destruct (leaderDict !! "brokerid") as [vb|] eqn:Hb; [|leader_fails].
  destruct (leaderDict !! "entity_id") as [ve|] eqn:He; [|leader_fails].
  destruct ve as [e| |f]; [|leader_fails..].
  destruct (entityParentPidDict (testcaseEnv w) !! e) as [pid|] eqn:Hpid; [|leader_fails].
  destruct (leaderDict !! "hostname") as [vh|] eqn:Hh; [|leader_fails].
  destruct vb as [brokerid| |f]; [|leader_fails..].
  destruct (leaderDict !! "partition") as [vp|] eqn:Hp; [|leader_fails].
  destruct vp as [partition| |f]; [|leader_fails..].
  eexists true, _. split; [reflexivity|]. cbn.
  split; [|done]. split; [|done]. intros _. by exists brokerid, e, pid, vh, partition.
Qed.

End leader_election.

(** C2 fails as it is stated: the dictionary that holds [entity_id] and
    [hostname] only (what the extraction leaves when no line matched) is
    not empty and a process id is on record for its entity, and the check
    records [FAILED], the [KeyError] for [brokerid] caught. *)
Lemma leader_election_partial_fact_counterexample :
  let leaderDict : gmap string pyval := {[ "entity_id" := PStr "3"; "hostname" := PStr "h4" ]} in
  let w := world_of {| testCaseBaseDir := "/tc"; testCaseLogsDir := "/tc/logs";
                       testcaseConfigsList := example_testcaseConfigsList;
                       userDefinedEnvVarDict := ∅;
                       entityParentPidDict := {[ "3" := "4242" ]};
                       validationStatusDict := ∅ |} ∅ in
  size leaderDict = 2
  ∧ entityParentPidDict (testcaseEnv w) !! "3" = Some "4242"
  ∧ (@validate_leader_election_successful placeholder_print leaderDict ∅ w).1
    = Ret (false, {[ "Validate leader election successful" := "FAILED" ]})
  ∧ (@leader_info placeholder_print leaderDict ∅ w).1 = Raise (KeyError "brokerid").
Proof. repeat split; vm_compute; reflexivity. Qed.

(** ** Log fact extractor: message ids *)

(** C3 does not hold of [get_message_id]: a line that holds [MessageID]
    (here the last line of a log, cut short after the id's first digits)
    and does not match the pattern makes [matchObj] [None], and
    [matchObj.group(1)] raises [AttributeError], which nothing catches. *)
Lemma get_message_id_raises_on_mismatch :
  (get_message_id "/tc/logs/producer_performance-5/producer_performance.log"
     (world_of example_env
        {[ "/tc/logs/producer_performance-5/producer_performance.log" :=
             "Topic:test_1:ThreadID:0:MessageID:0000000001:xxxxxxxxxx" +:+ PyStr.nl +:+
             "Topic:test_1:ThreadID:0:MessageID:00000" ]})).1
  = Raise AttributeError
  ∧ (@validate_data_matched (ref_utils silent) example_cluster
       (world_of example_env
          {[ "/tc/logs/producer_performance-5/producer_performance.log" :=
               "Topic:test_1:ThreadID:0:MessageID:0000000001:xxxxxxxxxx" +:+ PyStr.nl +:+
               "Topic:test_1:ThreadID:0:MessageID:00000";
             "/tc/logs/console_consumer-6/console_consumer.log" := example_consumer_log_one ]})).1
    = Raise AttributeError.
Proof. split; vm_compute; reflexivity. Qed.

(** ** Process lifecycle manager *)

Lemma with_pids_logged_id (w : World) : with_pids_logged id [] w = w.
Proof.
  destruct w as [[] ? ? ? ?]. unfold with_pids_logged, set_entityParentPidDict; cbn.
  by rewrite (right_id_L [] (++)).
Qed.

(** The read-back registers the token of every pid line, in their order,
    under the key that the caller chose. *)
Lemma read_back_pid_run (key : string → string) (lines : list string) (w : World) :
  Forall (λ l, is_Some (pid_token l)) (pid_lines lines) →
  read_back_pid lines (λ pid,
    modify (set_testcaseEnv (set_entityParentPidDict (<[key pid := pid]>)))) w
  = (Ret tt,
     with_pids_logged (λ m, foldl (λ m pid, <[key pid := pid]> m) m (pid_tokens lines))
       (found_pid_records lines) w).
Proof.
  revert w. induction lines as [|l lines IH]; intros w Hok.
  - cbn. by rewrite with_pids_logged_id.
  - unfold read_back_pid in *. cbn [for_each].
    unfold pid_tokens, found_pid_records, pid_lines in *.
    rewrite filter_cons in *. destruct (decide (PyStr.startswith l "pid" = true)) as [Hp|Hp].
    + apply Forall_cons in Hok as [[tok Htok] Hok]. rewrite Hp.
      change (PyStr.split ":" (PyStr.rstrip_nl l) !! 1) with (pid_token l). rewrite Htok.
      unfold mbind at 1, St_bind at 1. unfold mbind at 1, St_bind at 1.
      unfold logger_debug at 1, modify at 1 2.
      rewrite (IH _ Hok). cbn [omap fmap list_fmap list_omap]. rewrite Htok.
      cbn [foldl]. f_equal. destruct w as [[] ? ? ? ?].
      unfold with_pids_logged, set_testcaseEnv, set_entityParentPidDict, add_logged; cbn.
      by rewrite <-(assoc_L (++)).
    + apply not_true_is_false in Hp. rewrite Hp.
      unfold mbind at 1, St_bind at 1, mret at 1, St_ret at 1. by apply IH.
Qed.

Lemma str_length_app (s t : string) :
  String.length (s +:+ t) = String.length s + String.length t.
Proof. induction s as [|a s IH]; [done|]. rewrite str_app_cons. cbn. by rewrite IH. Qed.

Lemma endpoint_length (node : string * string * string) : 0 < String.length (endpoint node).
Proof. unfold endpoint. rewrite !str_length_app. cbn. lia. Qed.

Lemma zk_append_length (s e : string) : 0 < String.length e → 0 < String.length (zk_append s e).
Proof. intros He. unfold zk_append. case_decide; [|done]. rewrite !str_length_app. lia. Qed.

Lemma join_cons_cons (sep x y : string) (l : list string) :
  PyStr.join sep (x :: y :: l) = x +:+ sep +:+ PyStr.join sep (y :: l).
Proof. reflexivity. Qed.

(** Appending the endpoints one by one builds their comma-separated list. *)
Lemma foldl_zk_append_from (s : string) (l : list string) :
  0 < String.length s → Forall (λ e, 0 < String.length e) l →
  foldl zk_append s l = PyStr.join "," (s :: l).
Proof.
  revert s. induction l as [|e l IH]; intros s Hs Hl; [done|].
  apply Forall_cons in Hl as [He Hl]. cbn [foldl].
  rewrite IH; [|by apply zk_append_length|done].
  unfold zk_append. rewrite decide_True by done. rewrite join_cons_cons.
  destruct l as [|y l]; [done|]. rewrite !join_cons_cons. by rewrite !str_app_assoc.
Qed.

Lemma foldl_zk_append_join (l : list string) :
  Forall (λ e, 0 < String.length e) l → foldl zk_append "" l = PyStr.join "," l.
Proof.
  destruct l as [|e l]; [done|]. intros [He Hl]%Forall_cons. cbn [foldl].
  unfold zk_append at 2. rewrite decide_False by (cbn; lia).
  by apply foldl_zk_append_from.
Qed.

(** Registrations under one key: the last token stays. *)
Lemma foldl_insert_at (k : string) (tokens : list string) (m : gmap string string) (k' : string) :
  foldl (λ m pid, <[k := pid]> m) m tokens !! k'
  = if decide (k' = k) then from_option Some (m !! k) (last tokens) else m !! k'.
Proof.
  revert m. induction tokens as [|t tokens IH]; intros m; cbn [foldl].
  - by case_decide; subst.
  - rewrite IH. case_decide as Hk.
    + subst k'. rewrite lookup_insert_eq. destruct tokens as [|t' tokens]; [done|].
      rewrite last_cons_cons. destruct (last (t' :: tokens)) eqn:Hlast; [done|].
      by apply last_None in Hlast.
    + by rewrite lookup_insert_ne.
Qed.

(** Registrations of each token under itself. *)
Lemma foldl_insert_self (tokens : list string) (m : gmap string string) (k : string) :
  foldl (λ m pid, <[pid := pid]> m) m tokens !! k
  = if bool_decide (k ∈ tokens) then Some k else m !! k.
Proof.
  revert m. induction tokens as [|t tokens IH]; intros m; cbn [foldl].
  - rewrite bool_decide_eq_false_2; [done|]. apply not_elem_of_nil.
  - rewrite IH. destruct (decide (k ∈ tokens)) as [Hin|Hnin].
    + rewrite !bool_decide_eq_true_2; [done| |done]. by apply list_elem_of_further.
    + rewrite (bool_decide_eq_false_2 (k ∈ tokens)) by done.
      destruct (decide (k = t)) as [->|Hne].
      * rewrite lookup_insert_eq. rewrite bool_decide_eq_true_2; [done|]. apply list_elem_of_here.
      * rewrite lookup_insert_ne by done. rewrite bool_decide_eq_false_2; [done|].
        intros [?|?]%elem_of_cons; done.
Qed.

(** The read-back on any output: it registers the tokens in their order
    and raises [IndexError] at the first pid line that has no colon. *)
Lemma read_back_pid_any (key : string → string) (lines : list string) (w : World) :
  read_back_pid lines (λ pid,
    modify (set_testcaseEnv (set_entityParentPidDict (<[key pid := pid]>)))) w
  = (if decide (Forall (λ l, is_Some (pid_token l)) (pid_lines lines))
     then Ret tt else Raise IndexError,
     with_pids_logged
       (λ m, foldl (λ m pid, <[key pid := pid]> m) m (pid_tokens_read (pid_lines lines)))
       ((λ l, (DEBUG, "found pid line: [" +:+ PyStr.rstrip_nl l +:+ "]"))
          <$> pid_lines_read (pid_lines lines)) w).
Proof.
  revert w. induction lines as [|l lines IH]; intros w.
  - cbn. rewrite decide_True by constructor. by rewrite with_pids_logged_id.
  - unfold read_back_pid in *. cbn [for_each]. unfold pid_lines in *.
    rewrite filter_cons. destruct (decide (PyStr.startswith l "pid" = true)) as [Hp|Hp].
    + rewrite Hp. unfold mbind at 1, St_bind at 1. unfold mbind at 1, St_bind at 1.
      unfold logger_debug at 1, modify at 1.
      change (PyStr.split ":" (PyStr.rstrip_nl l) !! 1) with (pid_token l).
      cbn [pid_tokens_read pid_lines_read].
      destruct (pid_token l) as [tok|] eqn:Htok.
      * unfold modify at 1. rewrite IH. cbn [foldl fmap list_fmap]. f_equal.
        -- destruct (decide (Forall _ (filter _ lines))) as [Hok|Hbad].
           ++ rewrite decide_True; [done|]. apply Forall_cons. split; [by rewrite Htok|done].
           ++ rewrite decide_False; [done|]. by intros [_ ?]%Forall_cons.
        -- destruct w as [[] ? ? ? ?].
           unfold with_pids_logged, set_testcaseEnv, set_entityParentPidDict, add_logged; cbn.
           by rewrite <-(assoc_L (++)).
      * rewrite decide_False.
        2:{ intros [[? Hsome] _]%Forall_cons. by rewrite Htok in Hsome. }
        cbn. f_equal. by destruct w as [[] ? ? ? ?].
    + apply not_true_is_false in Hp. rewrite Hp.
      unfold mbind at 1, St_bind at 1, mret at 1, St_ret at 1. by apply IH.
Qed.

Lemma pid_tokens_read_ok (pl : list string) :
  Forall (λ l, is_Some (pid_token l)) pl → pid_tokens_read pl = omap pid_token pl.
Proof.
  induction pl as [|l pl IH]; [done|]. intros [[t Ht] Hpl]%Forall_cons.
  cbn. rewrite Ht. by rewrite IH.
Qed.

Section lifecycle.
Context `{!SystemTestUtils}.

(** The start of a metrics collector up to the read-back of its marker:
    the launch and the read-back are issued, nothing else has changed. *)
Lemma start_metrics_collection_steps (jmxHost jmxPort mBeanObjectName mBeanAttributes
    entityId : string) (cl : list pydict) (w : World) :
  is_Some (get_data_by_lookup_keyval cl "entity_id" entityId "kafka_home") →
  is_Some (get_data_by_lookup_keyval cl "entity_id" entityId "java_home") →
  ∃ (w1 : World) (cmd : string),
    let pidCmd := metrics_pid_cmd (testCaseLogsDir (testcaseEnv w)) jmxHost entityId in
    start_metrics_collection jmxHost jmxPort mBeanObjectName mBeanAttributes entityId cl w
    = read_back_pid (PyStr.readlines (remote_stdout (trace w ++ [AsyncSysCall cmd]) pidCmd))
        (λ thisPid, modify (set_testcaseEnv (set_entityParentPidDict (<[thisPid := thisPid]>)))) w1
    ∧ testcaseEnv w1 = testcaseEnv w
    ∧ files w1 = files w
    ∧ printed w1 = printed w
    ∧ trace w1 = trace w ++ [AsyncSysCall cmd; SysCallReturnSubproc pidCmd].
Proof.
  intros [kafkaHome Hkafka] [javaHome Hjava].
  eexists _, _. split.
  { unfold start_metrics_collection. run. cbv zeta. rewrite Hkafka, Hjava.
    run. run. run. run. run. run. run. reflexivity. }
  cbn. rewrite <-(assoc_L (++)). done.
Qed.

(** The start of a coordination node up to the read-back of its marker:
    its endpoint is appended to the connection string, the launch, the
    settle delay and the read-back are issued in this order. *)
Lemma start_zookeeper_steps (systemTestEnv : SystemTestEnv) (entityId hostname clientPort : string)
    (zkConnectStr : string) (w : World) :
  zookeeper_entity systemTestEnv (testcaseConfigsList (testcaseEnv w))
    (entityId, hostname, clientPort) →
  userDefinedEnvVarDict (testcaseEnv w) !! "zkConnectStr" = Some zkConnectStr →
  ∃ (w1 : World) (cmd : string) (tr : list event),
    let pidCmd := entity_pid_cmd (testCaseLogsDir (testcaseEnv w)) hostname "zookeeper" entityId in
    start_entity_in_background systemTestEnv entityId w
    = (read_back_pid (PyStr.readlines (remote_stdout tr pidCmd))
         (λ pid, modify (set_testcaseEnv (set_entityParentPidDict (<[entityId := pid]>))));;
       mret tt) w1
    ∧ tr = trace w ++ [AsyncSysCall cmd; Sleep 5]
    ∧ testcaseEnv w1
      = set_userDefinedEnvVarDict
          (<["zkConnectStr" := zk_append zkConnectStr (hostname +:+ ":" +:+ clientPort)]>)
          (testcaseEnv w)
    ∧ files w1 = files w
    ∧ printed w1 = printed w
    ∧ trace w1 = trace w ++ [AsyncSysCall cmd; Sleep 5; SysCallReturnSubproc pidCmd].
Proof.
  intros (Hhost & Hrole & [kafkaHome Hkafka] & [javaHome Hjava] & Hport
          & [configFile Hcfg] & [logFile Hlog]) Hzk.
  eexists _, _, _. split.
  { unfold start_entity_in_background. run. cbv zeta.
    rewrite Hhost, Hrole, Hkafka, Hjava, Hport, Hcfg, Hlog.
    run. run. run. run. run. run.
    erewrite (@bind_Ret World).
    2:{ rewrite decide_True by done. run. run. run. run.
        erewrite (@bind_Ret World _ _ _ _ _ _ zkConnectStr); [|by apply userDefinedEnvVar_Some].
        erewrite (@bind_Ret World _ _ _ _ _
          (set_testcaseEnv (set_userDefinedEnvVarDict
             (<["zkConnectStr" := zk_append zkConnectStr (hostname +:+ ":" +:+ clientPort)]>)) _) tt).
        - reflexivity.
        - unfold zk_append. by case_decide. }
    run. run. run. run. run. run.
    rewrite (decide_False (P := "zookeeper" = "broker")) by done. reflexivity. }
  cbn. rewrite <-!(assoc_L (++)). done.
Qed.

(** The start of a coordination node, when the marker is well formed. *)
Lemma start_zookeeper_run (systemTestEnv : SystemTestEnv) (entityId hostname clientPort : string)
    (zkConnectStr : string) (w : World) :
  zookeeper_entity systemTestEnv (testcaseConfigsList (testcaseEnv w))
    (entityId, hostname, clientPort) →
  userDefinedEnvVarDict (testcaseEnv w) !! "zkConnectStr" = Some zkConnectStr →
  (∀ tr, marker_ok (remote_stdout tr
           (entity_pid_cmd (testCaseLogsDir (testcaseEnv w)) hostname "zookeeper" entityId))) →
  ∃ (w' : World) (tr : list event),
    let lines := PyStr.readlines (remote_stdout tr
      (entity_pid_cmd (testCaseLogsDir (testcaseEnv w)) hostname "zookeeper" entityId)) in
    start_entity_in_background systemTestEnv entityId w = (Ret tt, w')
    ∧ testcaseEnv w'
      = set_entityParentPidDict (λ m, foldl (λ m pid, <[entityId := pid]> m) m (pid_tokens lines))
          (set_userDefinedEnvVarDict
             (<["zkConnectStr" := zk_append zkConnectStr (hostname +:+ ":" +:+ clientPort)]>)
             (testcaseEnv w))
    ∧ files w' = files w.
Proof.
  intros Hnode Hzk Hmarker.
  destruct (start_zookeeper_steps _ _ _ _ _ _ Hnode Hzk)
    as (w1 & cmd & tr & Hrun & _ & Henv & Hfiles & _).
  cbv zeta in *. eexists _, tr. rewrite Hrun.
  erewrite (@bind_Ret World).
  2:{ rewrite (read_back_pid_any (λ _, entityId)). by rewrite decide_True by apply Hmarker. }
  split; [reflexivity|]. cbn. rewrite Henv, Hfiles. split; [|done].
  by rewrite pid_tokens_read_ok by apply Hmarker.
Qed.

(** The loop of [start_zookeepers] over coordination nodes. *)
Lemma start_each_zookeeper (systemTestEnv : SystemTestEnv)
    (nodes : list (string * string * string)) (zkConnectStr : string) (w : World) :
  Forall (zookeeper_entity systemTestEnv (testcaseConfigsList (testcaseEnv w))) nodes →
  (∀ tr cmd, marker_ok (remote_stdout tr cmd)) →
  userDefinedEnvVarDict (testcaseEnv w) !! "zkConnectStr" = Some zkConnectStr →
  ∃ w' : World,
    for_each (nodes.*1.*1) (start_entity_in_background systemTestEnv) w = (Ret tt, w')
    ∧ userDefinedEnvVarDict (testcaseEnv w') !! "zkConnectStr"
      = Some (foldl zk_append zkConnectStr (endpoint <$> nodes)).
Proof.
  intros Hnodes Hmarker. revert zkConnectStr w Hnodes.
  induction nodes as [|[[entityId hostname] clientPort] nodes IH]; intros zk w Hnodes Hzk.
  - by exists w.
  - apply Forall_cons in Hnodes as [Hnode Hnodes].
    destruct (start_zookeeper_run _ _ _ _ _ _ Hnode Hzk (λ tr, Hmarker tr _))
      as (w1 & tr & Hrun & Henv & _). cbv zeta in Henv.
    destruct (IH (zk_append zk (hostname +:+ ":" +:+ clientPort)) w1) as (w' & Hrest & Hzk').
    { by rewrite Henv. }
    { rewrite Henv. apply lookup_insert_eq. }
    exists w'. split; [|exact Hzk'].
    cbn [fmap list_fmap for_each fst]. by run_with Hrun.
Qed.

(** C7. Started in topology order from an empty connection string, the
    coordination nodes leave in [userDefinedEnvVarDict] the fold of
    their [hostname:clientPort] under [zk_append] (each node appends its
    own, after a comma unless the string is empty, before the next
    starts), which is their comma-separated list. *)
Theorem zkConnectStr_accumulates (systemTestEnv : SystemTestEnv)
    (nodes : list (string * string * string)) (zkConnectStr : string) (w : World) :
  get_data_from_list_of_dicts (clusterEntityConfigDictList systemTestEnv)
    "role" "zookeeper" "entity_id" = nodes.*1.*1 →
  Forall (zookeeper_entity systemTestEnv (testcaseConfigsList (testcaseEnv w))) nodes →
  (∀ tr cmd, marker_ok (remote_stdout tr cmd)) →
  userDefinedEnvVarDict (testcaseEnv w) !! "zkConnectStr" = Some zkConnectStr →
  ∃ w' : World,
    start_zookeepers systemTestEnv w = (Ret tt, w')
    ∧ userDefinedEnvVarDict (testcaseEnv w') !! "zkConnectStr"
      = Some (foldl zk_append zkConnectStr (endpoint <$> nodes))
    ∧ (zkConnectStr = "" →
       foldl zk_append zkConnectStr (endpoint <$> nodes) = PyStr.join "," (endpoint <$> nodes)).
Proof.
  intros Hids Hnodes Hmarker Hzk.
  destruct (start_each_zookeeper _ _ _ _ Hnodes Hmarker Hzk) as (w' & Hrun & Hzk').
  exists w'. unfold start_zookeepers. rewrite Hids. split; [done|]. split; [done|].
  intros ->. apply foldl_zk_append_join.
  apply Forall_fmap, Forall_true. intros [[? h] p]. apply endpoint_length.
Qed.

End lifecycle.

(** C7 on the example: the nodes at [h1:2181], [h2:2181], [h3:2181]. *)
Lemma zkConnectStr_accumulates_witness :
  ∃ w' : World,
    @start_zookeepers (ref_utils (pid_answer "4242")) example_cluster
      (example_world example_consumer_log_all) = (Ret tt, w')
    ∧ userDefinedEnvVarDict (testcaseEnv w') !! "zkConnectStr" = Some "h1:2181,h2:2181,h3:2181".
Proof.
  destruct (@zkConnectStr_accumulates (ref_utils (pid_answer "4242")) example_cluster
              [("0", "h1", "2181"); ("1", "h2", "2181"); ("2", "h3", "2181")] ""
              (example_world example_consumer_log_all)) as (w' & Hrun & Hzk & _).
  - vm_compute; reflexivity.
  - repeat apply Forall_cons_2; [..|apply Forall_nil_2];
      (repeat split; try (vm_compute; reflexivity); vm_compute; by eexists).
  - intros tr cmd. unfold marker_ok. vm_compute.
    apply Forall_cons_2; [by eexists|apply Forall_nil_2].
  - vm_compute; reflexivity.
  - exists w'. split; [exact Hrun|exact Hzk].
Defined.

(** ** The pid marker read back *)

Lemma rev_app_rev_app (s cur t : string) :
  String.rev_app (String.rev_app s cur) t = String.rev_app cur (s +:+ t).
Proof.
  revert cur t. induction s as [|c s IH]; intros cur t; [done|].
  cbn [String.rev_app]. by rewrite IH.
Qed.

Lemma rev_rev_app (s cur : string) : String.rev (String.rev_app s cur) = String.rev_app cur s.
Proof. unfold String.rev. by rewrite rev_app_rev_app, str_app_nil_r. Qed.

(** A text without newline, and then a newline, is one line. *)
Lemma readlines_go_line (cur s : string) :
  PyStr.has_char PyStr.nl_char s = false →
  PyStr.readlines_go cur (s +:+ PyStr.nl) = [String.rev_app cur (s +:+ PyStr.nl)].
Proof.
  revert cur. induction s as [|c s IH]; intros cur Hs.
  - reflexivity.
  - cbn [PyStr.has_char] in Hs. apply orb_false_elim in Hs as [Hc Hs].
    apply bool_decide_eq_false in Hc. rewrite str_app_cons. cbn [PyStr.readlines_go].
    rewrite decide_False by done. by rewrite IH.
Qed.

Lemma rstrip_nl_no_nl (s : string) :
  PyStr.has_char PyStr.nl_char s = false → PyStr.rstrip_nl s = s.
Proof.
  induction s as [|c s IH]; [done|]. cbn [PyStr.has_char]. intros Hs.
  apply orb_false_elim in Hs as [Hc Hs]. apply bool_decide_eq_false in Hc.
  cbn [PyStr.rstrip_nl]. rewrite IH by done. destruct s; [|done]. by rewrite decide_False.
Qed.

Lemma rstrip_nl_line (s : string) :
  PyStr.has_char PyStr.nl_char s = false → PyStr.rstrip_nl (s +:+ PyStr.nl) = s.
Proof.
  induction s as [|c s IH]; [done|]. cbn [PyStr.has_char]. intros Hs.
  apply orb_false_elim in Hs as [Hc Hs]. apply bool_decide_eq_false in Hc.
  rewrite str_app_cons. cbn [PyStr.rstrip_nl]. rewrite IH by done.
  destruct s; [|done]. by rewrite decide_False.
Qed.

(** A text without the separator is one piece. *)
Lemma split_go_no_sep (sep : ascii) (cur s : string) :
  PyStr.has_char sep s = false → PyStr.split_go sep cur s = [String.rev_app cur s].
Proof.
  revert cur. induction s as [|c s IH]; intros cur Hs.
  - reflexivity.
  - cbn [PyStr.has_char] in Hs. apply orb_false_elim in Hs as [Hc Hs].
    apply bool_decide_eq_false in Hc. cbn [PyStr.split_go].
    rewrite decide_False by done. by rewrite IH.
Qed.

(** The token of the line [pid:N]. *)
Lemma pid_token_of_marker (pid : string) :
  PyStr.has_char PyStr.nl_char pid = false → PyStr.has_char ":" pid = false →
  pid_token ("pid:" +:+ pid +:+ PyStr.nl) = Some pid.
Proof.
  intros Hnl Hcolon. unfold pid_token.
  rewrite <-str_app_assoc, rstrip_nl_line.
  - rewrite !str_app_cons, str_app_nil_l. unfold PyStr.split. cbn [PyStr.split_go].
    rewrite !decide_False by done. rewrite decide_True by done.
    by rewrite split_go_no_sep.
  - by rewrite !str_app_cons, str_app_nil_l.
Qed.

Lemma pid_lines_of_marker (pid : string) :
  PyStr.has_char PyStr.nl_char pid = false →
  pid_lines (PyStr.readlines ("pid:" +:+ pid +:+ PyStr.nl)) = ["pid:" +:+ pid +:+ PyStr.nl].
Proof.
  intros Hnl. unfold PyStr.readlines. rewrite <-str_app_assoc, readlines_go_line.
  - unfold pid_lines. cbn [String.rev_app]. rewrite filter_cons, decide_True; [done|].
    rewrite str_app_assoc. by rewrite !str_app_cons.
  - by rewrite !str_app_cons, str_app_nil_l.
Qed.

Section registration.
Context `{!SystemTestUtils}.

(** X1. The start of a coordination node whose marker is well formed
    returns, appends the node's endpoint to the connection string, and
    touches one key of [entityParentPidDict], the entity's id: it maps to
    the token of the last pid line of the marker (to what it was when the
    marker has no pid line), and every other key keeps its entry. *)
Theorem entity_start_registers_under_entity_id (systemTestEnv : SystemTestEnv)
    (entityId hostname clientPort zkConnectStr : string) (w : World) :
  zookeeper_entity systemTestEnv (testcaseConfigsList (testcaseEnv w))
    (entityId, hostname, clientPort) →
  userDefinedEnvVarDict (testcaseEnv w) !! "zkConnectStr" = Some zkConnectStr →
  (∀ tr, marker_ok (remote_stdout tr
           (entity_pid_cmd (testCaseLogsDir (testcaseEnv w)) hostname "zookeeper" entityId))) →
  ∃ (w' : World) (tr : list event),
    let tokens := pid_tokens (PyStr.readlines (remote_stdout tr
      (entity_pid_cmd (testCaseLogsDir (testcaseEnv w)) hostname "zookeeper" entityId))) in
    start_entity_in_background systemTestEnv entityId w = (Ret tt, w')
    ∧ (∀ k, k ≠ entityId →
         entityParentPidDict (testcaseEnv w') !! k = entityParentPidDict (testcaseEnv w) !! k)
    ∧ entityParentPidDict (testcaseEnv w') !! entityId
      = from_option Some (entityParentPidDict (testcaseEnv w) !! entityId) (last tokens)
    ∧ userDefinedEnvVarDict (testcaseEnv w')
      = <["zkConnectStr" := zk_append zkConnectStr (hostname +:+ ":" +:+ clientPort)]>
          (userDefinedEnvVarDict (testcaseEnv w))
    ∧ files w' = files w.
Proof.
  intros Hnode Hzk Hmarker.
  destruct (start_zookeeper_run _ _ _ _ _ _ Hnode Hzk Hmarker) as (w' & tr & Hrun & Henv & Hfiles).
  cbv zeta in *. exists w', tr. split; [done|]. rewrite Henv. cbn. split; [|split; [|done]].
  - intros k Hk. by rewrite foldl_insert_at, decide_False.
  - by rewrite foldl_insert_at, decide_True.
Qed.

(** X2. The start of a metrics collector whose marker is well formed
    returns and registers each token of the marker under itself: a key
    of [entityParentPidDict] maps to itself when it is such a token and
    keeps its entry otherwise.  The entity id is no key of the
    registration, and nothing else of the testcase environment changes. *)
Theorem metrics_start_registers_under_pid (jmxHost jmxPort mBeanObjectName mBeanAttributes
    entityId : string) (cl : list pydict) (w : World) :
  is_Some (get_data_by_lookup_keyval cl "entity_id" entityId "kafka_home") →
  is_Some (get_data_by_lookup_keyval cl "entity_id" entityId "java_home") →
  (∀ tr, marker_ok (remote_stdout tr
           (metrics_pid_cmd (testCaseLogsDir (testcaseEnv w)) jmxHost entityId))) →
  ∃ (w' : World) (tr : list event),
    let tokens := pid_tokens (PyStr.readlines (remote_stdout tr
      (metrics_pid_cmd (testCaseLogsDir (testcaseEnv w)) jmxHost entityId))) in
    start_metrics_collection jmxHost jmxPort mBeanObjectName mBeanAttributes entityId cl w
    = (Ret tt, w')
    ∧ (∀ k, entityParentPidDict (testcaseEnv w') !! k
            = if bool_decide (k ∈ tokens) then Some k
              else entityParentPidDict (testcaseEnv w) !! k)
    ∧ userDefinedEnvVarDict (testcaseEnv w') = userDefinedEnvVarDict (testcaseEnv w)
    ∧ testcaseConfigsList (testcaseEnv w') = testcaseConfigsList (testcaseEnv w)
    ∧ files w' = files w.
Proof.
  intros Hkafka Hjava Hmarker.
  destruct (start_metrics_collection_steps jmxHost jmxPort mBeanObjectName mBeanAttributes
              entityId cl w Hkafka Hjava) as (w1 & cmd & Hrun & Henv & Hfiles & _).
  cbv zeta in *. eexists _, (trace w ++ [AsyncSysCall cmd]). rewrite Hrun.
  rewrite (read_back_pid_any (λ pid, pid)). rewrite decide_True by apply Hmarker.
  split; [reflexivity|]. cbn. rewrite Henv, Hfiles. cbn. split; [|done].
  intros k. rewrite pid_tokens_read_ok by apply Hmarker. apply foldl_insert_self.
Qed.

(** X3. When the marker of a coordination node holds a pid line that has
    no colon, its start raises [IndexError], and by then the node has
    been launched: the launch, the settle delay and the read-back are in
    the trace, and the node's endpoint is in the connection string. *)
Theorem entity_start_raises_on_marker_without_colon (systemTestEnv : SystemTestEnv)
    (entityId hostname clientPort zkConnectStr : string) (w : World) :
  zookeeper_entity systemTestEnv (testcaseConfigsList (testcaseEnv w))
    (entityId, hostname, clientPort) →
  userDefinedEnvVarDict (testcaseEnv w) !! "zkConnectStr" = Some zkConnectStr →
  (∀ tr, ¬ marker_ok (remote_stdout tr
           (entity_pid_cmd (testCaseLogsDir (testcaseEnv w)) hostname "zookeeper" entityId))) →
  ∃ (w' : World) (cmd : string),
    start_entity_in_background systemTestEnv entityId w = (Raise IndexError, w')
    ∧ trace w' = trace w ++ [AsyncSysCall cmd; Sleep 5;
                            SysCallReturnSubproc (entity_pid_cmd (testCaseLogsDir (testcaseEnv w))
                                                    hostname "zookeeper" entityId)]
    ∧ userDefinedEnvVarDict (testcaseEnv w') !! "zkConnectStr"
      = Some (zk_append zkConnectStr (hostname +:+ ":" +:+ clientPort)).
Proof.
  intros Hnode Hzk Hmarker.
  destruct (start_zookeeper_steps _ _ _ _ _ _ Hnode Hzk)
    as (w1 & cmd & tr & Hrun & _ & Henv & _ & _ & Htrace).
  cbv zeta in *. eexists _, cmd. rewrite Hrun.
  erewrite (@bind_Raise World).
  2:{ rewrite (read_back_pid_any (λ _, entityId)). by rewrite decide_False by apply Hmarker. }
  split; [reflexivity|]. cbn. rewrite Henv, Htrace. split; [done|]. apply lookup_insert_eq.
Qed.


End registration.

Lemma example_zookeeper_entity (stdout : list event → string → string) (consumer_log : string) :
  @zookeeper_entity (ref_utils stdout) example_cluster
    (testcaseConfigsList (testcaseEnv (example_world consumer_log))) ("0", "h1", "2181").
Proof. repeat split; vm_compute; by eexists. Qed.

Lemma pid_answer_marker_ok (pid : string) (tr : list event) (cmd : string) :
  PyStr.has_char PyStr.nl_char pid = false → PyStr.has_char ":" pid = false →
  marker_ok (pid_answer pid tr cmd).
Proof.
  intros Hnl Hcolon. unfold marker_ok, pid_answer. rewrite pid_lines_of_marker by done.
  apply Forall_cons_2; [|apply Forall_nil_2]. rewrite pid_token_of_marker by done. by eexists.
Qed.

(** X1 on the example: the node [0] at [h1:2181], its marker [pid:4242]. *)
Lemma entity_start_registers_under_entity_id_witness :
  ∃ w' : World,
    @start_entity_in_background (ref_utils (pid_answer "4242")) example_cluster "0"
      (example_world example_consumer_log_all) = (Ret tt, w')
    ∧ entityParentPidDict (testcaseEnv w') !! "0" = Some "4242"
    ∧ entityParentPidDict (testcaseEnv w') !! "1" = None.
Proof.
  destruct (@entity_start_registers_under_entity_id (ref_utils (pid_answer "4242"))
              example_cluster "0" "h1" "2181" "" (example_world example_consumer_log_all))
    as (w' & tr & Hrun & Hother & Hid & _).
  - apply example_zookeeper_entity.
  - vm_compute; reflexivity.
  - intros tr. by apply pid_answer_marker_ok.
  - exists w'. split; [exact Hrun|]. split; [exact Hid|]. by rewrite Hother.
Defined.

(** X2 on the example: the collector of the broker [3], its marker
    [pid:4243]. *)
Lemma metrics_start_registers_under_pid_witness :
  ∃ w' : World,
    @start_metrics_collection (ref_utils (pid_answer "4243")) "h4" "9990"
      "kafka:type=kafka.SocketServerStats" "AvgFetchRequestMs, AvgProduceRequestMs" "3"
      (clusterEntityConfigDictList example_cluster) (example_world example_consumer_log_all)
    = (Ret tt, w')
    ∧ entityParentPidDict (testcaseEnv w') !! "4243" = Some "4243"
    ∧ entityParentPidDict (testcaseEnv w') !! "3" = None.
Proof.
  destruct (@metrics_start_registers_under_pid (ref_utils (pid_answer "4243")) "h4" "9990"
              "kafka:type=kafka.SocketServerStats" "AvgFetchRequestMs, AvgProduceRequestMs" "3"
              (clusterEntityConfigDictList example_cluster)
              (example_world example_consumer_log_all))
    as (w' & tr & Hrun & Hkeys & _).
  - vm_compute; by eexists.
  - vm_compute; by eexists.
  - intros tr. by apply pid_answer_marker_ok.
  - exists w'. split; [exact Hrun|]. split; [exact (Hkeys "4243")|exact (Hkeys "3")].
Defined.

(** X3 on the example: the marker of the node [0] holds [pid 4242]. *)
Lemma entity_start_raises_on_marker_without_colon_witness :
  ∃ (w' : World) (cmd : string),
    @start_entity_in_background (ref_utils no_colon_answer) example_cluster "0"
      (example_world example_consumer_log_all) = (Raise IndexError, w')
    ∧ trace w' = [AsyncSysCall cmd; Sleep 5;
                  SysCallReturnSubproc "ssh h1 'cat /tc/logs/zookeeper-0/entity_0_pid'"]
    ∧ userDefinedEnvVarDict (testcaseEnv w') !! "zkConnectStr" = Some "h1:2181".
Proof.
  destruct (@entity_start_raises_on_marker_without_colon (ref_utils no_colon_answer)
              example_cluster "0" "h1" "2181" "" (example_world example_consumer_log_all))
    as (w' & cmd & Hrun & Htrace & Hzk).
  - apply example_zookeeper_entity.
  - vm_compute; reflexivity.
  - intros tr Hok. unfold marker_ok in Hok.
    assert (Hl : pid_lines (PyStr.readlines (@remote_stdout (ref_utils no_colon_answer) tr
                   (entity_pid_cmd (testCaseLogsDir (testcaseEnv
                      (example_world example_consumer_log_all))) "h1" "zookeeper" "0")))
                 = ["pid 4242" +:+ PyStr.nl]) by (vm_compute; reflexivity).
    rewrite Hl in Hok. apply Forall_cons in Hok as [[tok Htok] _]. vm_compute in Htok. discriminate.
  - exists w', cmd. split; [exact Hrun|]. split; [exact Htrace|exact Hzk].
Defined.


(** ** Log fact extractor: message ids *)

Lemma lazy_until_colon_sound (s g : string) :
  lazy_until_colon s = Some g →
  PyStr.has_char ":" g = false ∧ PyStr.has_char PyStr.nl_char g = false
  ∧ ∃ rest, s = g +:+ ":" +:+ rest.
Proof.
  revert g. induction s as [|c s IH]; intros g; cbn [lazy_until_colon]; [done|].
  case_decide as Hcolon.
  - intros [= <-]. repeat split. exists s. by rewrite Hcolon.
  - case_decide as Hnl; [done|].
    destruct (lazy_until_colon s) as [g'|]; [|done]. intros [= <-].
    destruct (IH g' eq_refl) as (Hg1 & Hg2 & rest & ->). cbn [PyStr.has_char].
    rewrite Hg1, Hg2. rewrite !bool_decide_eq_false_2 by done. repeat split. by exists rest.
Qed.

Lemma strip_prefix_sound (p s r : string) : strip_prefix p s = Some r → s = p +:+ r.
Proof.
  revert s. induction p as [|a p IH]; intros [|b s]; cbn [strip_prefix]; try done.
  - by intros [= <-].
  - by intros [= <-].
  - case_decide as Hab; [|done]. intros Hr. rewrite str_app_cons, <-(IH _ Hr). by subst.
Qed.

(** X5. Whatever [re.match('.*MessageID:(.*?):', line)] captures stands
    in the line between [MessageID:] and a colon, holds neither a colon
    nor a newline, and no newline comes before it. *)
Theorem match_message_id_sound (line g : string) :
  match_message_id line = Some g →
  PyStr.has_char ":" g = false ∧ PyStr.has_char PyStr.nl_char g = false
  ∧ ∃ before rest, line = before +:+ "MessageID:" +:+ g +:+ ":" +:+ rest
                   ∧ PyStr.has_char PyStr.nl_char before = false.
Proof.
  revert g. induction line as [|c line IH]; intros g; cbn [match_message_id]; [done|].
  assert (Hhere : strip_prefix "MessageID:" (String c line) ≫= lazy_until_colon = Some g →
                  PyStr.has_char ":" g = false ∧ PyStr.has_char PyStr.nl_char g = false
                  ∧ ∃ before rest, String c line = before +:+ "MessageID:" +:+ g +:+ ":" +:+ rest
                                   ∧ PyStr.has_char PyStr.nl_char before = false).
  { destruct (strip_prefix "MessageID:" (String c line)) as [r|] eqn:Hr; [|done].
    cbn. intros (Hg1 & Hg2 & rest & ->)%lazy_until_colon_sound.
    repeat split; [done..|]. exists "", rest. split; [|done].
    by rewrite (strip_prefix_sound _ _ _ Hr). }
  case_decide as Hnl; [exact Hhere|].
  destruct (match_message_id line) as [g'|]; [|exact Hhere]. intros [= <-].
  destruct (IH g' eq_refl) as (Hg1 & Hg2 & before & rest & -> & Hb).
  repeat split; [done..|]. exists (String c before), rest. split; [done|].
  cbn [PyStr.has_char]. rewrite Hb. by rewrite bool_decide_eq_false_2.
Qed.

(** The loop of [get_message_id] over the lines. *)
Lemma message_id_loop (lines : list string) (acc : list string) (w : World) :
  let marked := filter (λ l, PyStr.contains "MessageID" l = true) lines in
  for_fold lines acc (λ messageIdList line,
    if negb (PyStr.contains "MessageID" line) then mret messageIdList
    else
      match match_message_id line with
      | Some g => mret (messageIdList ++ [g])
      | None => raise AttributeError
      end) w
  = (if decide (Forall (λ l, is_Some (match_message_id l)) marked)
     then Ret (acc ++ omap match_message_id marked) else Raise AttributeError, w).
Proof.
  revert acc. induction lines as [|l lines IH]; intros acc; cbv zeta in *.
  - cbn. rewrite decide_True by constructor. by rewrite (right_id_L [] (++)).
  - cbn [for_fold]. rewrite filter_cons.
    destruct (decide (PyStr.contains "MessageID" l = true)) as [Hc|Hc].
    + rewrite Hc. cbn [negb]. destruct (match_message_id l) as [g|] eqn:Hg.
      * unfold mbind at 1, St_bind at 1, mret at 1, St_ret at 1. rewrite IH.
        destruct (decide (Forall _ (filter _ lines))) as [Hok|Hbad].
        -- rewrite decide_True; [|apply Forall_cons; split; [by rewrite Hg|done]].
           cbn [omap list_omap]. rewrite Hg. by rewrite <-(assoc_L (++)).
        -- rewrite decide_False; [done|]. by intros [_ ?]%Forall_cons.
      * rewrite decide_False; [done|]. intros [[? Hsome] _]%Forall_cons. by rewrite Hg in Hsome.
    + apply not_true_is_false in Hc. rewrite Hc. cbn [negb].
      unfold mbind at 1, St_bind at 1, mret at 1, St_ret at 1. apply IH.
Qed.

Lemma get_message_id_cases (logPathName : string) (w : World) :
  get_message_id logPathName w
  = match files w !! logPathName with
    | None => (Raise (IOError logPathName), w)
    | Some content =>
        let marked := filter (λ l, PyStr.contains "MessageID" l = true) (PyStr.readlines content) in
        (if decide (Forall (λ l, is_Some (match_message_id l)) marked)
         then Ret (omap match_message_id marked) else Raise AttributeError, w)
    end.
Proof.
  unfold get_message_id. unfold mbind at 1, St_bind at 1. cbn [get].
  destruct (files w !! logPathName) as [content|]; [|done].
  unfold mbind at 1, St_bind at 1, mret at 1, St_ret at 1.
  apply (message_id_loop _ []).
Qed.

Lemma get_message_id_world (logPathName : string) (w : World) :
  (get_message_id logPathName w).2 = w.
Proof.
  rewrite get_message_id_cases. by destruct (files w !! logPathName).
Qed.

(** X6. [get_message_id] on a log that is there: it answers the captures
    of the lines that hold [MessageID], in their order, when each of
    these lines matches the pattern, and raises [AttributeError]
    otherwise; on a log that is not there it raises [IOError].  It never
    changes the world. *)
Theorem get_message_id_outcome (logPathName : string) (w : World) :
  get_message_id logPathName w
  = match files w !! logPathName with
    | None => (Raise (IOError logPathName), w)
    | Some content =>
        let marked := filter (λ l, PyStr.contains "MessageID" l = true) (PyStr.readlines content) in
        (if decide (Forall (λ l, is_Some (match_message_id l)) marked)
         then Ret (omap match_message_id marked) else Raise AttributeError, w)
    end.
Proof. apply get_message_id_cases. Qed.

Section data_matched_errors.
Context `{!SystemTestUtils}.

(** X8. When one of the two logs cannot be read or holds a [MessageID]
    line that does not match, [validate_data_matched] raises what
    [get_message_id] raised and leaves the world as it was: no status is
    recorded under [Validate for data matched] and the file of missing
    ids is not written. *)
Theorem data_matched_raises_without_status (systemTestEnv : SystemTestEnv) (w : World)
    (consumerEntityId producerLog consumerLog : string) (e : exn) :
  get_data_by_lookup_keyval (clusterEntityConfigDictList systemTestEnv)
    "role" "console_consumer" "entity_id" = Some consumerEntityId →
  userDefinedEnvVarDict (testcaseEnv w) !! "producerLogPathName" = Some producerLog →
  userDefinedEnvVarDict (testcaseEnv w) !! "consumerLogPathName" = Some consumerLog →
  (get_message_id producerLog w).1 = Raise e
  ∨ ((∃ ids, (get_message_id producerLog w).1 = Ret ids)
     ∧ (get_message_id consumerLog w).1 = Raise e) →
  validate_data_matched systemTestEnv w = (Raise e, w).
Proof.
  intros Hcons Hpl Hcl Hraise.
  unfold validate_data_matched. rewrite Hcons.
  run. run_with (resolve_default "console_consumer" consumerEntityId w).
  run_with (userDefinedEnvVar_Some _ _ _ Hpl).
  pose proof (get_message_id_world producerLog w) as HwP.
  pose proof (get_message_id_world consumerLog w) as HwC.
  destruct (get_message_id producerLog w) as [rP wP] eqn:HP.
  destruct (get_message_id consumerLog w) as [rC wC] eqn:HC. cbn in *. subst wP wC.
  destruct Hraise as [->|[[ids ->] ->]].
  - by erewrite (@bind_Raise World) by exact HP.
  - run_with HP. run_with (userDefinedEnvVar_Some _ _ _ Hcl).
    by erewrite (@bind_Raise World) by exact HC.
Qed.

End data_matched_errors.

(** X8 on the example, the producer's log cut short after the digits of
    an id. *)
Lemma data_matched_raises_without_status_witness :
  let w := world_of example_env
             {[ "/tc/logs/producer_performance-5/producer_performance.log" :=
                  "Topic:test_1:ThreadID:0:MessageID:0000000001:xxxxxxxxxx" +:+ PyStr.nl +:+
                  "Topic:test_1:ThreadID:0:MessageID:00000";
                "/tc/logs/console_consumer-6/console_consumer.log" := example_consumer_log_one ]} in
  @validate_data_matched (ref_utils silent) example_cluster w = (Raise AttributeError, w).
Proof.
  intros w.
  apply (@data_matched_raises_without_status (ref_utils silent) example_cluster w "6"
           "/tc/logs/producer_performance-5/producer_performance.log"
           "/tc/logs/console_consumer-6/console_consumer.log");
    [vm_compute; reflexivity..|].
  left. vm_compute; reflexivity.
Defined.

(** X5 on a line of the producer's log. *)
Lemma match_message_id_sound_witness :
  PyStr.has_char ":" "0000000001" = false ∧ PyStr.has_char PyStr.nl_char "0000000001" = false
  ∧ ∃ before rest,
      "Topic:test_1:ThreadID:0:MessageID:0000000001:xxxxxxxxxx" +:+ PyStr.nl
      = before +:+ "MessageID:" +:+ "0000000001" +:+ ":" +:+ rest
      ∧ PyStr.has_char PyStr.nl_char before = false.
Proof.
  apply (match_message_id_sound
           ("Topic:test_1:ThreadID:0:MessageID:0000000001:xxxxxxxxxx" +:+ PyStr.nl)).
  vm_compute; reflexivity.
Defined.

Lemma first_char_split (c : ascii) (a a' r r' : string) :
  PyStr.has_char c a = false → PyStr.has_char c a' = false →
  a +:+ String c r = a' +:+ String c r' → a = a' ∧ r = r'.
Proof.
  revert a'. induction a as [|x a IH]; intros [|y a']; cbn [PyStr.has_char];
    rewrite ?str_app_nil_l, ?str_app_cons; intros Ha Ha' Heq.
  - by simplify_eq.
  - simplify_eq. apply orb_false_elim in Ha' as [Hy _]. by apply bool_decide_eq_false in Hy.
  - simplify_eq. apply orb_false_elim in Ha as [Hx _]. by apply bool_decide_eq_false in Hx.
  - apply orb_false_elim in Ha as [_ Ha]. apply orb_false_elim in Ha' as [_ Ha'].
    injection Heq as -> Heq. destruct (IH a' Ha Ha' Heq) as [-> ->]. done.
Qed.

Lemma lazy_until_colon_complete (g rest : string) :
  PyStr.has_char ":" g = false → PyStr.has_char PyStr.nl_char g = false →
  lazy_until_colon (g +:+ ":" +:+ rest) = Some g.
Proof.
  induction g as [|c g IH]; cbn [PyStr.has_char]; intros Hc Hn.
  - done.
  - apply orb_false_elim in Hc as [Hc1 Hc]. apply orb_false_elim in Hn as [Hn1 Hn].
    apply bool_decide_eq_false in Hc1, Hn1. rewrite str_app_cons. cbn [lazy_until_colon].
    rewrite !decide_False by done. by rewrite IH.
Qed.

Lemma strip_prefix_complete (p r : string) : strip_prefix p (p +:+ r) = Some r.
Proof.
  induction p as [|a p IH]; [by destruct r|]. rewrite str_app_cons. cbn [strip_prefix].
  by rewrite decide_True.
Qed.

Lemma match_here_or_later (c : ascii) (r : string) :
  c ≠ PyStr.nl_char →
  is_Some (strip_prefix "MessageID:" (String c r) ≫= lazy_until_colon) →
  is_Some (match_message_id (String c r)).
Proof.
  intros Hc Hhere. cbn [match_message_id]. rewrite decide_False by done.
  by destruct (match_message_id r); [eexists|].
Qed.

(** A line in which [MessageID:<id>:] stands after a text without
    newline matches. *)
Lemma match_message_id_complete (before g rest : string) :
  PyStr.has_char PyStr.nl_char before = false →
  PyStr.has_char ":" g = false → PyStr.has_char PyStr.nl_char g = false →
  is_Some (match_message_id (before +:+ "MessageID:" +:+ g +:+ ":" +:+ rest)).
Proof.
  intros Hb Hg1 Hg2. induction before as [|c before IH].
  - rewrite str_app_nil_l, (str_app_cons "M" "essageID:").
    apply match_here_or_later; [done|]. rewrite <-(str_app_cons "M" "essageID:").
    rewrite strip_prefix_complete. cbn. rewrite lazy_until_colon_complete by done. by eexists.
  - cbn [PyStr.has_char] in Hb. apply orb_false_elim in Hb as [Hc Hb].
    apply bool_decide_eq_false in Hc. rewrite str_app_cons. cbn [match_message_id].
    rewrite decide_False by done. destruct (IH Hb) as [g' ->]. by eexists.
Qed.

(** X7. From a line that holds [MessageID:<id>:] once, after a text
    without newline, with an id that holds neither a colon nor a newline,
    the pattern captures that id. *)
Theorem match_message_id_unique (before g rest : string) :
  PyStr.has_char PyStr.nl_char before = false →
  PyStr.has_char ":" g = false → PyStr.has_char PyStr.nl_char g = false →
  (∀ b r, before +:+ "MessageID:" +:+ g +:+ ":" +:+ rest = b +:+ "MessageID:" +:+ r → b = before) →
  match_message_id (before +:+ "MessageID:" +:+ g +:+ ":" +:+ rest) = Some g.
Proof.
  intros Hb Hg1 Hg2 Honce.
  destruct (match_message_id_complete before g rest Hb Hg1 Hg2) as [g' Hg'].
  rewrite Hg'. f_equal.
  destruct (match_message_id_sound _ _ Hg') as (Hg'1 & _ & b & r & Heq & _).
  pose proof (Honce _ _ Heq) as ->.
  apply (inj (String.app before)), (inj (String.app "MessageID:")) in Heq.
  by destruct (first_char_split ":" g g' rest r Hg1 Hg'1 Heq).
Qed.

(** X7 on a line of the producer's log. *)
Lemma match_message_id_unique_witness :
  match_message_id ("ThreadID:0:" +:+ "MessageID:" +:+ "0000000001" +:+ ":" +:+ ("xxxxx" +:+ PyStr.nl))
  = Some "0000000001".
Proof.
  apply (match_message_id_unique "ThreadID:0:" "0000000001" ("xxxxx" +:+ PyStr.nl));
    [reflexivity..|].
  intros b r Heq. vm_compute in Heq.
  repeat (destruct b as [|? b];
          [ try discriminate Heq; try reflexivity
          | try discriminate Heq; injection Heq as <- Heq ]).
Defined.

(** ** Log fact extractor: the leader *)

Section leader.
Context `{!SystemTestUtils, !PyLib, !PyPrint}.

(** The [try] block writes four keys of the leader dictionary at most. *)
Lemma leader_details_frame (pattern : option string) (line : string)
    (d : gmap string pyval) (k : string) :
  k ∉ ["timestamp"; "brokerid"; "topic"; "partition"] →
  (leader_details pattern line d).2 !! k = d !! k.
Proof.
  intros Hk.
  assert (k ≠ "timestamp" ∧ k ≠ "brokerid" ∧ k ≠ "topic" ∧ k ≠ "partition")
    as (Hk1 & Hk2 & Hk3 & Hk4)
    by (repeat split; intros ->; apply Hk, list_elem_of_In; cbn; tauto).
  unfold leader_details, mbind, St_bind, mret, St_ret, raise, modify, lift_res.
  repeat case_match; simplify_eq; cbn; rewrite ?lookup_insert_ne by done; done.
Qed.

(** One line of the remote output: the loop body returns, whatever the
    line and the pattern are, and touches nothing but the log and four
    keys of the leader dictionary. *)
Lemma leader_line_run (d : gmap string pyval) (line msg : string) (w : World) :
  userDefinedEnvVarDict (testcaseEnv w) !! "LEADER_ELECTION_COMPLETED_MSG" = Some msg →
  ∃ (d' : gmap string pyval) (w' : World),
    leader_line d line w = (Ret d', w')
    ∧ testcaseEnv w' = testcaseEnv w ∧ files w' = files w ∧ trace w' = trace w
    ∧ (∀ k, k ∉ ["timestamp"; "brokerid"; "topic"; "partition"] → d' !! k = d !! k)
    ∧ (PyStr.contains msg (PyStr.rstrip_nl line) = false → d' = d ∧ w' = w).
Proof.
  intros Hmsg. unfold leader_line. cbv zeta.
  destruct (PyStr.contains msg (PyStr.rstrip_nl line)) eqn:Hc.
  - pose proof (leader_details_frame
      (userDefinedEnvVarDict (testcaseEnv w) !! "REGX_LEADER_ELECTION_PATTERN")
      (PyStr.rstrip_nl line) d) as Hframe.
    destruct (leader_details
      (userDefinedEnvVarDict (testcaseEnv w) !! "REGX_LEADER_ELECTION_PATTERN")
      (PyStr.rstrip_nl line) d) as [[e|[]] d'] eqn:Hd; cbn in Hframe.
    + eexists d', _. split.
      { run_with (userDefinedEnvVar_Some _ _ _ Hmsg). rewrite Hc. run. run.
        cbn [testcaseEnv add_logged]. rewrite Hd. run. reflexivity. }
      done.
    + eexists d', _. split.
      { run_with (userDefinedEnvVar_Some _ _ _ Hmsg). rewrite Hc. run. run.
        cbn [testcaseEnv add_logged]. rewrite Hd. reflexivity. }
      done.
  - exists d, w. split.
    { run_with (userDefinedEnvVar_Some _ _ _ Hmsg). by rewrite Hc. }
    done.
Qed.

(** The loop over the lines of the remote output. *)
Lemma leader_lines_run (lines : list string) (d : gmap string pyval) (msg : string) (w : World) :
  userDefinedEnvVarDict (testcaseEnv w) !! "LEADER_ELECTION_COMPLETED_MSG" = Some msg →
  ∃ (d' : gmap string pyval) (w' : World),
    for_fold lines d leader_line w = (Ret d', w')
    ∧ testcaseEnv w' = testcaseEnv w ∧ files w' = files w ∧ trace w' = trace w
    ∧ (∀ k, k ∉ ["timestamp"; "brokerid"; "topic"; "partition"] → d' !! k = d !! k)
    ∧ (Forall (λ l, PyStr.contains msg (PyStr.rstrip_nl l) = false) lines → d' = d ∧ w' = w).
Proof.
  revert d w. induction lines as [|l lines IH]; intros d w Hmsg.
  - by exists d, w.
  - destruct (leader_line_run d l msg w Hmsg) as (d1 & w1 & Hrun1 & Henv1 & Hf1 & Ht1 & Hk1 & Hno1).
    destruct (IH d1 w1) as (d' & w' & Hrun & Henv & Hf & Ht & Hk & Hno); [by rewrite Henv1|].
    exists d', w'. split; [cbn [for_fold]; by run_with Hrun1|].
    split; [congruence|]. split; [congruence|]. split; [congruence|]. split.
    + intros k Hin. by rewrite Hk, Hk1.
    + intros [Hl Hlines]%Forall_cons. destruct (Hno1 Hl) as [-> ->]. by apply Hno.
Qed.

(** One broker up to the loop over the lines that its host printed. *)
Lemma leader_of_broker_steps (cl : list pydict) (d : gmap string pyval)
    (brokerEntityId hostname msg : string) (w : World) :
  userDefinedEnvVarDict (testcaseEnv w) !! "LEADER_ELECTION_COMPLETED_MSG" = Some msg →
  get_data_by_lookup_keyval cl "entity_id" brokerEntityId "hostname" = Some hostname →
  is_Some (get_data_by_lookup_keyval (testcaseConfigsList (testcaseEnv w))
             "entity_id" brokerEntityId "log_filename") →
  ∃ (w1 : World) (cmd : string),
    leader_of_broker cl d brokerEntityId w
    = for_fold (PyStr.readlines (remote_stdout (trace w) cmd))
        (<["hostname" := PStr hostname]> (<["entity_id" := PStr brokerEntityId]> d))
        leader_line w1
    ∧ testcaseEnv w1 = testcaseEnv w ∧ files w1 = files w
    ∧ trace w1 = trace w ++ [SysCallReturnSubproc cmd].
Proof.
  intros Hmsg Hhost [logFile Hlog].
  eexists _, _. split.
  { unfold leader_of_broker. run. cbv zeta. rewrite Hhost, Hlog.
    run_with (resolve_default "broker" brokerEntityId w). run.
    run_with (userDefinedEnvVar_Some _ _ _ Hmsg). run. run. run. reflexivity. }
  done.
Qed.

(** One broker: its id and its host go into the leader dictionary before
    its log is searched, and the search cannot take them out. *)
Lemma leader_of_broker_run (cl : list pydict) (d : gmap string pyval)
    (brokerEntityId hostname msg : string) (w : World) :
  userDefinedEnvVarDict (testcaseEnv w) !! "LEADER_ELECTION_COMPLETED_MSG" = Some msg →
  get_data_by_lookup_keyval cl "entity_id" brokerEntityId "hostname" = Some hostname →
  is_Some (get_data_by_lookup_keyval (testcaseConfigsList (testcaseEnv w))
             "entity_id" brokerEntityId "log_filename") →
  ∃ (d' : gmap string pyval) (w' : World) (cmd : string),
    leader_of_broker cl d brokerEntityId w = (Ret d', w')
    ∧ testcaseEnv w' = testcaseEnv w ∧ files w' = files w
    ∧ d' !! "entity_id" = Some (PStr brokerEntityId)
    ∧ d' !! "hostname" = Some (PStr hostname)
    ∧ (∀ k, k ∉ ["timestamp"; "brokerid"; "topic"; "partition"; "entity_id"; "hostname"] →
         d' !! k = d !! k)
    ∧ (Forall (λ l, PyStr.contains msg (PyStr.rstrip_nl l) = false)
         (PyStr.readlines (remote_stdout (trace w) cmd)) →
       d' = <["hostname" := PStr hostname]> (<["entity_id" := PStr brokerEntityId]> d)).
Proof.
  intros Hmsg Hhost Hlog.
  destruct (leader_of_broker_steps cl d _ _ _ w Hmsg Hhost Hlog)
    as (w1 & cmd & Hsteps & Henv1 & Hf1 & _).
  destruct (leader_lines_run (PyStr.readlines (remote_stdout (trace w) cmd))
              (<["hostname" := PStr hostname]> (<["entity_id" := PStr brokerEntityId]> d)) msg w1)
    as (d' & w' & Hrun & Henv & Hf & _ & Hk & Hno); [by rewrite Henv1|].
  exists d', w', cmd. split; [by rewrite Hsteps|].
  split; [congruence|]. split; [congruence|].
  assert (Hkeys : ∀ k, k ∈ ["entity_id"; "hostname"] →
                       k ∉ ["timestamp"; "brokerid"; "topic"; "partition"]).
  { intros k Hk1 Hk2. apply list_elem_of_In in Hk1, Hk2. cbn in Hk1, Hk2.
    destruct Hk1 as [<-|[<-|[]]]; destruct Hk2 as [?|[?|[?|[?|[]]]]]; done. }
  split; [rewrite Hk by (apply Hkeys, list_elem_of_In; cbn; tauto);
          by rewrite lookup_insert_ne, lookup_insert_eq|].
  split; [rewrite Hk by (apply Hkeys, list_elem_of_In; cbn; tauto);
          by rewrite lookup_insert_eq|]. split.
  - intros k Hin. rewrite Hk.
    + rewrite !lookup_insert_ne; [done|intros <-; apply Hin, list_elem_of_In; cbn; tauto..].
    + intros Hk4. apply Hin. apply list_elem_of_In in Hk4. apply list_elem_of_In.
      cbn in *. tauto.
  - intros Hlines. by destruct (Hno Hlines).
Qed.

(** The loop over the brokers: the dictionary names the last of them. *)
Lemma leader_brokers_run (cl : list pydict) (brokers : list string)
    (d : gmap string pyval) (msg : string) (w : World) :
  userDefinedEnvVarDict (testcaseEnv w) !! "LEADER_ELECTION_COMPLETED_MSG" = Some msg →
  Forall (λ b, is_Some (get_data_by_lookup_keyval cl "entity_id" b "hostname")
               ∧ is_Some (get_data_by_lookup_keyval (testcaseConfigsList (testcaseEnv w))
                            "entity_id" b "log_filename")) brokers →
  ∃ (d' : gmap string pyval) (w' : World),
    for_fold brokers d (leader_of_broker cl) w = (Ret d', w')
    ∧ testcaseEnv w' = testcaseEnv w ∧ files w' = files w
    ∧ (∀ b, last brokers = Some b →
         d' !! "entity_id" = Some (PStr b)
         ∧ d' !! "hostname" = PStr <$> get_data_by_lookup_keyval cl "entity_id" b "hostname")
    ∧ (brokers = [] → d' = d).
Proof.
  revert d w. induction brokers as [|b brokers IH]; intros d w Hmsg Hall.
  - exists d, w. repeat split; try done.
  - apply Forall_cons in Hall as [[[h Hh] Hlog] Hall].
    destruct (leader_of_broker_run cl d b h msg w Hmsg Hh Hlog)
      as (d1 & w1 & cmd & Hrun1 & Henv1 & Hf1 & Hid1 & Hhost1 & _).
    destruct (IH d1 w1) as (d' & w' & Hrun & Henv & Hf & Hlast & Hnil);
      [by rewrite Henv1|by rewrite Henv1|].
    exists d', w'. split; [cbn [for_fold]; by run_with Hrun1|].
    split; [congruence|]. split; [congruence|]. split; [|done].
    intros b'. destruct brokers as [|b2 brokers].
    + intros [= <-]. rewrite (Hnil eq_refl), Hh. done.
    + rewrite last_cons_cons. apply Hlast.
Qed.

(** C10. When the marker is in [userDefinedEnvVarDict] and every broker
    has a host and a log file name, [get_leader_elected_log_line]
    returns, whatever the remote hosts print (also when no line matches)
    and whatever the pattern is, a dictionary that is not empty and whose
    [entity_id] and [hostname] are those of the last broker of the
    topology; the environment of the testcase and the files are as
    before.  That broker need not be the one whose log gave the election
    line: on the example, where the log of the broker [3] alone holds
    the line, the dictionary holds the broker id of that line and names
    the broker [4]. *)
Theorem leader_fact_names_last_broker (systemTestEnv : SystemTestEnv)
    (brokers : list string) (b hostname msg : string) (w : World) :
  get_data_from_list_of_dicts (clusterEntityConfigDictList systemTestEnv)
    "role" "broker" "entity_id" = brokers ++ [b] →
  userDefinedEnvVarDict (testcaseEnv w) !! "LEADER_ELECTION_COMPLETED_MSG" = Some msg →
  Forall (λ b, is_Some (get_data_by_lookup_keyval (clusterEntityConfigDictList systemTestEnv)
                          "entity_id" b "hostname")
               ∧ is_Some (get_data_by_lookup_keyval (testcaseConfigsList (testcaseEnv w))
                            "entity_id" b "log_filename")) (brokers ++ [b]) →
  get_data_by_lookup_keyval (clusterEntityConfigDictList systemTestEnv)
    "entity_id" b "hostname" = Some hostname →
  ∃ (leaderDict : gmap string pyval) (w' : World),
    get_leader_elected_log_line systemTestEnv w = (Ret leaderDict, w')
    ∧ leaderDict !! "entity_id" = Some (PStr b)
    ∧ leaderDict !! "hostname" = Some (PStr hostname)
    ∧ 0 < size leaderDict
    ∧ testcaseEnv w' = testcaseEnv w ∧ files w' = files w
    ∧ ∃ (d3 : gmap string pyval) (w3 : World),
        @get_leader_elected_log_line (ref_utils election_answer) example_pylib example_cluster
          (example_world example_consumer_log_all) = (Ret d3, w3)
        ∧ election_answer [] "grep kafka_server_9091.log" = example_election_line +:+ PyStr.nl
        ∧ election_answer [] "grep kafka_server_9092.log" = ""
        ∧ d3 !! "brokerid" = Some (PStr "1")
        ∧ d3 !! "entity_id" = Some (PStr "4").
Proof.
  intros Hbrokers Hmsg Hall Hhost.
  destruct (leader_brokers_run (clusterEntityConfigDictList systemTestEnv) (brokers ++ [b]) ∅ msg
              (add_logged (INFO, "looking up leader...") w) Hmsg Hall)
    as (d' & w' & Hrun & Henv & Hf & Hlast & _).
  destruct (Hlast b (last_snoc _ _)) as [Hid Hh]. rewrite Hhost in Hh.
  exists d', w'. split.
  { unfold get_leader_elected_log_line. run. cbv zeta. by rewrite Hbrokers. }
  split; [done|]. split; [done|]. split.
  { destruct (decide (size d' = 0)) as [Hsize|]; [|lia].
    apply map_size_empty_iff in Hsize. by rewrite Hsize in Hid. }
  split; [done|]. split; [done|].
  eexists _, _. split; [vm_compute; reflexivity|]. repeat split; vm_compute; reflexivity.
Qed.

(** A line that holds the marker and that the pattern matches with its
    four groups: the four keys are set from the groups. *)
Lemma leader_line_match (d : gmap string pyval) (line msg pattern ts brokerid topic partition : string)
    (t : Z) (w : World) :
  userDefinedEnvVarDict (testcaseEnv w) !! "LEADER_ELECTION_COMPLETED_MSG" = Some msg →
  userDefinedEnvVarDict (testcaseEnv w) !! "REGX_LEADER_ELECTION_PATTERN" = Some pattern →
  PyStr.contains msg (PyStr.rstrip_nl line) = true →
  re_match pattern (PyStr.rstrip_nl line)
  = Ret (Some [Some ts; Some brokerid; Some topic; Some partition]) →
  strptime_mktime ts = Some t →
  leader_line d line w
  = (Ret (<["partition" := PStr partition]> (<["topic" := PStr topic]>
            (<["brokerid" := PStr brokerid]> (<["timestamp" := PFloat t]> d)))),
     add_logged (INFO, "found the log line : " +:+ PyStr.rstrip_nl line) w).
Proof.
  intros Hmsg Hpat Hc Hre Hts. unfold leader_line. cbv zeta.
  run_with (userDefinedEnvVar_Some _ _ _ Hmsg). rewrite Hc. run. run.
  cbn [testcaseEnv add_logged]. rewrite Hpat.
  unfold leader_details, mbind, St_bind, mret, St_ret, raise, modify, lift_res.
  rewrite Hre. cbn. rewrite Hts. reflexivity.
Qed.

Lemma for_fold_app {S A V} (l1 l2 : list A) (v : V) (body : V → A → St S V) (s : S) :
  for_fold (l1 ++ l2) v body s = (for_fold l1 v body ≫= λ v', for_fold l2 v' body) s.
Proof.
  revert v s. induction l1 as [|x l1 IH]; intros v s; [done|].
  cbn [app for_fold]. unfold mbind, St_bind in *.
  destruct (body v x s) as [[e|v1] s1]; [done|]. apply IH.
Qed.

(** The check on a dictionary that holds all that it reads. *)
Lemma validate_leader_complete (leaderDict : gmap string pyval)
    (validationStatusDict : gmap string string)
    (brokerid entityId pid partition : string) (hostname : pyval) (w : World) :
  leaderDict !! "brokerid" = Some (PStr brokerid) →
  leaderDict !! "entity_id" = Some (PStr entityId) →
  entityParentPidDict (testcaseEnv w) !! entityId = Some pid →
  leaderDict !! "hostname" = Some hostname →
  leaderDict !! "partition" = Some (PStr partition) →
  validate_leader_election_successful leaderDict validationStatusDict w
  = (Ret (true, <["Validate leader election successful" := "PASSED"]> validationStatusDict),
     add_logged (INFO, "found leader in entity [" +:+ entityId +:+ "] with brokerid ["
                       +:+ brokerid +:+ "] for partition [" +:+ partition +:+ "]") w).
Proof.
  intros Hb He Hp Hh Hpart. unfold validate_leader_election_successful.
  rewrite decide_True.
  2:{ destruct (decide (size leaderDict = 0)) as [Hsize|]; [|lia].
      apply map_size_empty_iff in Hsize. by rewrite Hsize in Hb. }
  unfold try_except, leader_info, leaderDict_get, str_of_pyval, logger_info, modify, get, raise,
    mbind, St_bind, mret, St_ret. by rewrite Hb, He, Hp, Hh, Hpart.
Qed.

(** The check on a dictionary without [brokerid]. *)
Lemma validate_leader_without_brokerid (leaderDict : gmap string pyval)
    (validationStatusDict : gmap string string) (w : World) :
  leaderDict !! "brokerid" = None →
  (validate_leader_election_successful leaderDict validationStatusDict w).1
  = Ret (false, <["Validate leader election successful" := "FAILED"]> validationStatusDict).
Proof.
  intros Hb. unfold validate_leader_election_successful. case_decide; [|done].
  unfold try_except, leader_info, leaderDict_get, logger_error, print, modify, raise,
    mbind, St_bind, mret, St_ret. by rewrite Hb.
Qed.

(** While no line holds the marker, the loop over the brokers leaves
    nothing but [entity_id] and [hostname] in the dictionary. *)
Lemma leader_brokers_quiet (cl : list pydict) (brokers : list string) (msg : string)
    (w : World) (d1 : gmap string pyval) (w1 : World) :
  userDefinedEnvVarDict (testcaseEnv w) !! "LEADER_ELECTION_COMPLETED_MSG" = Some msg →
  Forall (λ b, is_Some (get_data_by_lookup_keyval cl "entity_id" b "hostname")
               ∧ is_Some (get_data_by_lookup_keyval (testcaseConfigsList (testcaseEnv w))
                            "entity_id" b "log_filename")) brokers →
  (∀ tr cmd, Forall (λ l, PyStr.contains msg (PyStr.rstrip_nl l) = false)
               (PyStr.readlines (remote_stdout tr cmd))) →
  for_fold brokers ∅ (leader_of_broker cl) w = (Ret d1, w1) →
  ∀ k, k ≠ "entity_id" → k ≠ "hostname" → d1 !! k = None.
Proof.
  intros Hmsg Hall Hquiet. revert d1 w1.
  induction brokers as [|b0 brokers IH] using rev_ind; intros d1 w1 Hrun1 k Hk1 Hk2.
  - cbn in Hrun1. injection Hrun1 as <- <-. apply lookup_empty.
  - apply Forall_app in Hall as [Hall [[[h0 Hh0] Hlog0] _]%Forall_cons].
    rewrite for_fold_app in Hrun1.
    destruct (leader_brokers_run cl brokers ∅ msg w Hmsg Hall) as (d0 & w0 & Hrun0 & Henv0 & _).
    rewrite (bind_Ret _ _ _ _ _ Hrun0) in Hrun1. cbn [for_fold] in Hrun1.
    destruct (leader_of_broker_run cl d0 b0 h0 msg w0)
      as (d2 & w2 & cmd2 & Hrun2 & _ & _ & _ & _ & _ & Hno2);
      [by rewrite Henv0|done|by rewrite Henv0|].
    rewrite (bind_Ret _ _ _ _ _ Hrun2) in Hrun1.
    change ((Ret d2, w2) = (Ret d1, w1)) in Hrun1. injection Hrun1 as <- <-.
    rewrite (Hno2 (Hquiet _ _)). rewrite !lookup_insert_ne by done.
    by apply (IH Hall d0 w0).
Qed.

(** X10. When no line that the remote hosts print holds the marker (no
    leader has been elected), the leader dictionary is exactly the
    [entity_id] and the [hostname] of the last broker, and the check on
    it records [FAILED] whatever [entityParentPidDict] holds: a
    dictionary that is not empty and a pid on record do not make it pass. *)
Theorem no_election_line_fails_validation (systemTestEnv : SystemTestEnv)
    (brokers : list string) (b hostname msg : string) (w : World) :
  get_data_from_list_of_dicts (clusterEntityConfigDictList systemTestEnv)
    "role" "broker" "entity_id" = brokers ++ [b] →
  userDefinedEnvVarDict (testcaseEnv w) !! "LEADER_ELECTION_COMPLETED_MSG" = Some msg →
  Forall (λ b, is_Some (get_data_by_lookup_keyval (clusterEntityConfigDictList systemTestEnv)
                          "entity_id" b "hostname")
               ∧ is_Some (get_data_by_lookup_keyval (testcaseConfigsList (testcaseEnv w))
                            "entity_id" b "log_filename")) (brokers ++ [b]) →
  get_data_by_lookup_keyval (clusterEntityConfigDictList systemTestEnv)
    "entity_id" b "hostname" = Some hostname →
  (∀ tr cmd, Forall (λ l, PyStr.contains msg (PyStr.rstrip_nl l) = false)
               (PyStr.readlines (remote_stdout tr cmd))) →
  ∃ w' : World,
    get_leader_elected_log_line systemTestEnv w
    = (Ret {[ "entity_id" := PStr b; "hostname" := PStr hostname ]}, w')
    ∧ ∀ validationStatusDict w'',
        (validate_leader_election_successful
           {[ "entity_id" := PStr b; "hostname" := PStr hostname ]} validationStatusDict w'').1
        = Ret (false, <["Validate leader election successful" := "FAILED"]> validationStatusDict).
Proof.
  intros Hbrokers Hmsg Hall Hhost Hquiet.
  apply Forall_app in Hall as [Hall [[_ Hlog] _]%Forall_cons].
  destruct (leader_brokers_run (clusterEntityConfigDictList systemTestEnv) brokers ∅ msg
              (add_logged (INFO, "looking up leader...") w) Hmsg Hall)
    as (d1 & w1 & Hrun1 & Henv1 & _ & _ & _).
  destruct (leader_of_broker_run (clusterEntityConfigDictList systemTestEnv) d1 b hostname msg w1)
    as (d' & w' & cmd & Hrun & _ & _ & Hid & Hh & _ & Hno);
    [by rewrite Henv1|done|by rewrite Henv1|].
  specialize (Hno (Hquiet _ _)).
  pose proof (leader_brokers_quiet (clusterEntityConfigDictList systemTestEnv) brokers msg
                (add_logged (INFO, "looking up leader...") w) d1 w1 Hmsg Hall Hquiet Hrun1) as Hd1.
  assert (d' = {[ "entity_id" := PStr b; "hostname" := PStr hostname ]}) as ->.
  { rewrite Hno. apply map_eq. intros k.
    destruct (decide (k = "hostname")) as [->|Hk2].
    { by rewrite lookup_insert_eq, lookup_insert_ne, lookup_singleton_eq. }
    destruct (decide (k = "entity_id")) as [->|Hk1].
    { by rewrite lookup_insert_ne, !lookup_insert_eq. }
    rewrite !lookup_insert_ne by done. rewrite lookup_singleton_ne by done. by apply Hd1. }
  exists w'. split.
  - unfold get_leader_elected_log_line. run. cbv zeta. rewrite Hbrokers, for_fold_app.
    run_with Hrun1. cbn [for_fold]. by run_with Hrun.
  - intros vsd w''. apply validate_leader_without_brokerid.
    by rewrite lookup_insert_ne, lookup_singleton_ne.
Qed.

(** X11. When the host of every broker prints one line that holds the
    marker and that the pattern matches with its four groups, the leader
    dictionary holds the timestamp and the three strings of the groups
    and names the last broker; and when a pid is on record for that
    broker, the check on this dictionary records [PASSED]. *)
Theorem election_line_passes_validation (systemTestEnv : SystemTestEnv)
    (brokers : list string) (b hostname msg pattern line ts brokerid topic partition pid : string)
    (t : Z) (w : World) :
  get_data_from_list_of_dicts (clusterEntityConfigDictList systemTestEnv)
    "role" "broker" "entity_id" = brokers ++ [b] →
  userDefinedEnvVarDict (testcaseEnv w) !! "LEADER_ELECTION_COMPLETED_MSG" = Some msg →
  userDefinedEnvVarDict (testcaseEnv w) !! "REGX_LEADER_ELECTION_PATTERN" = Some pattern →
  Forall (λ b, is_Some (get_data_by_lookup_keyval (clusterEntityConfigDictList systemTestEnv)
                          "entity_id" b "hostname")
               ∧ is_Some (get_data_by_lookup_keyval (testcaseConfigsList (testcaseEnv w))
                            "entity_id" b "log_filename")) (brokers ++ [b]) →
  get_data_by_lookup_keyval (clusterEntityConfigDictList systemTestEnv)
    "entity_id" b "hostname" = Some hostname →
  (∀ tr cmd, PyStr.readlines (remote_stdout tr cmd) = [line]) →
  PyStr.contains msg (PyStr.rstrip_nl line) = true →
  re_match pattern (PyStr.rstrip_nl line)
  = Ret (Some [Some ts; Some brokerid; Some topic; Some partition]) →
  strptime_mktime ts = Some t →
  entityParentPidDict (testcaseEnv w) !! b = Some pid →
  ∃ (leaderDict : gmap string pyval) (w' : World),
    get_leader_elected_log_line systemTestEnv w = (Ret leaderDict, w')
    ∧ leaderDict !! "entity_id" = Some (PStr b)
    ∧ leaderDict !! "hostname" = Some (PStr hostname)
    ∧ leaderDict !! "timestamp" = Some (PFloat t)
    ∧ leaderDict !! "brokerid" = Some (PStr brokerid)
    ∧ leaderDict !! "topic" = Some (PStr topic)
    ∧ leaderDict !! "partition" = Some (PStr partition)
    ∧ ∀ validationStatusDict,
        (validate_leader_election_successful leaderDict validationStatusDict w').1
        = Ret (true, <["Validate leader election successful" := "PASSED"]> validationStatusDict).
Proof.
  intros Hbrokers Hmsg Hpat Hall Hhost Hline Hc Hre Hts Hpid.
  apply Forall_app in Hall as [Hall [[_ Hlog] _]%Forall_cons].
  destruct (leader_brokers_run (clusterEntityConfigDictList systemTestEnv) brokers ∅ msg
              (add_logged (INFO, "looking up leader...") w) Hmsg Hall)
    as (d1 & w1 & Hrun1 & Henv1 & _ & _ & _).
  destruct (leader_of_broker_steps (clusterEntityConfigDictList systemTestEnv) d1 b hostname msg w1)
    as (w2 & cmd & Hsteps & Henv2 & _); [by rewrite Henv1|done|by rewrite Henv1|].
  rewrite Hline in Hsteps. cbn [for_fold] in Hsteps.
  erewrite (bind_Ret _ _ w2) in Hsteps.
  2:{ apply (leader_line_match _ line msg pattern ts brokerid topic partition t);
        [by rewrite Henv2, Henv1..|done|done|done]. }
  eexists _, _. split.
  { unfold get_leader_elected_log_line. run. cbv zeta. rewrite Hbrokers, for_fold_app.
    run_with Hrun1. cbn [for_fold]. run_with Hsteps. reflexivity. }
  split; [by rewrite !lookup_insert_ne by done; rewrite lookup_insert_eq|].
  split; [by rewrite !lookup_insert_ne by done; rewrite lookup_insert_eq|].
  split; [by rewrite !lookup_insert_ne by done; rewrite lookup_insert_eq|].
  split; [by rewrite !lookup_insert_ne by done; rewrite lookup_insert_eq|].
  split; [by rewrite !lookup_insert_ne by done; rewrite lookup_insert_eq|].
  split; [by rewrite lookup_insert_eq|].
  intros vsd. erewrite (validate_leader_complete _ _ brokerid b pid partition (PStr hostname)).
  - done.
  - by rewrite !lookup_insert_ne by done; rewrite lookup_insert_eq.
  - by rewrite !lookup_insert_ne by done; rewrite lookup_insert_eq.
  - cbn. by rewrite Henv2, Henv1.
  - by rewrite !lookup_insert_ne by done; rewrite lookup_insert_eq.
  - by rewrite lookup_insert_eq.
Qed.

End leader.

Lemma example_brokers_known (stdout : list event → string → string) :
  Forall (λ b, is_Some (@get_data_by_lookup_keyval (ref_utils stdout)
                          (clusterEntityConfigDictList example_cluster) "entity_id" b "hostname")
               ∧ is_Some (@get_data_by_lookup_keyval (ref_utils stdout)
                            (testcaseConfigsList (testcaseEnv (example_world example_consumer_log_all)))
                            "entity_id" b "log_filename")) (["3"] ++ ["4"]).
Proof. repeat apply Forall_cons_2; [..|apply Forall_nil_2]; split; vm_compute; by eexists. Qed.

(** The leader dictionary of the example names the broker [4], the last
    of the topology, and holds the broker id [1] that the log of the
    broker [3] gave. *)
Lemma leader_fact_names_last_broker_witness :
  ∃ (leaderDict : gmap string pyval) (w' : World),
    @get_leader_elected_log_line (ref_utils election_answer) example_pylib example_cluster
      (example_world example_consumer_log_all) = (Ret leaderDict, w')
    ∧ leaderDict !! "entity_id" = Some (PStr "4")
    ∧ leaderDict !! "hostname" = Some (PStr "h5")
    ∧ 0 < size leaderDict
    ∧ leaderDict !! "brokerid" = Some (PStr "1")
    ∧ trace w' = [SysCallReturnSubproc
                   ("ssh h4 " +:+ dq +:+ "grep -i -h 'completed the leader state transition'  "
                    +:+ "/tc/logs/broker-3/kafka_server_9091.log |  sort | tail -1" +:+ dq);
                  SysCallReturnSubproc
                   ("ssh h5 " +:+ dq +:+ "grep -i -h 'completed the leader state transition'  "
                    +:+ "/tc/logs/broker-4/kafka_server_9092.log |  sort | tail -1" +:+ dq)].
Proof.
  destruct (@leader_fact_names_last_broker (ref_utils election_answer) example_pylib
              example_cluster ["3"] "4" "h5" "completed the leader state transition"
              (example_world example_consumer_log_all))
    as (d & w' & Hrun & Hid & Hhost & Hsize & _ & _ & _).
  - vm_compute; reflexivity.
  - vm_compute; reflexivity.
  - apply example_brokers_known.
  - vm_compute; reflexivity.
  - exists d, w'. split; [exact Hrun|]. split; [exact Hid|]. split; [exact Hhost|].
    split; [exact Hsize|].
    assert (Hd : (@get_leader_elected_log_line (ref_utils election_answer) example_pylib
                    example_cluster (example_world example_consumer_log_all)).1
                 = Ret d) by (by rewrite Hrun).
    assert (Hw : (@get_leader_elected_log_line (ref_utils election_answer) example_pylib
                    example_cluster (example_world example_consumer_log_all)).2
                 = w') by (by rewrite Hrun).
    vm_compute in Hd. injection Hd as <-. rewrite <-Hw. split; vm_compute; reflexivity.
Defined.

(** On the example, with remote hosts that print nothing. *)
Lemma no_election_line_fails_validation_witness :
  ∃ w' : World,
    @get_leader_elected_log_line (ref_utils silent) example_pylib example_cluster
      (example_world example_consumer_log_all)
    = (Ret {[ "entity_id" := PStr "4"; "hostname" := PStr "h5" ]}, w')
    ∧ ∀ validationStatusDict w'',
        (@validate_leader_election_successful placeholder_print
           {[ "entity_id" := PStr "4"; "hostname" := PStr "h5" ]} validationStatusDict w'').1
        = Ret (false, <["Validate leader election successful" := "FAILED"]> validationStatusDict).
Proof.
  apply (@no_election_line_fails_validation (ref_utils silent) example_pylib placeholder_print
           example_cluster ["3"] "4" "h5" "completed the leader state transition"
           (example_world example_consumer_log_all)).
  - vm_compute; reflexivity.
  - vm_compute; reflexivity.
  - apply example_brokers_known.
  - vm_compute; reflexivity.
  - intros tr cmd. apply Forall_nil_2.
Defined.

(** On the example, with remote hosts that print the election line and a
    pid on record for the broker [4]. *)
Lemma election_line_passes_validation_witness :
  let w := set_testcaseEnv (set_entityParentPidDict (<["4" := "4242"]>))
             (example_world example_consumer_log_all) in
  ∃ (leaderDict : gmap string pyval) (w' : World),
    @get_leader_elected_log_line (ref_utils election_everywhere) example_pylib example_cluster w
    = (Ret leaderDict, w')
    ∧ leaderDict !! "entity_id" = Some (PStr "4")
    ∧ leaderDict !! "hostname" = Some (PStr "h5")
    ∧ leaderDict !! "timestamp" = Some (PFloat 1388534400500000)
    ∧ leaderDict !! "brokerid" = Some (PStr "1")
    ∧ leaderDict !! "topic" = Some (PStr "test_1")
    ∧ leaderDict !! "partition" = Some (PStr "0")
    ∧ ∀ validationStatusDict,
        (@validate_leader_election_successful placeholder_print leaderDict
           validationStatusDict w').1
        = Ret (true, <["Validate leader election successful" := "PASSED"]> validationStatusDict).
Proof.
  intros w.
  apply (@election_line_passes_validation (ref_utils election_everywhere) example_pylib
           placeholder_print example_cluster ["3"] "4" "h5"
           "completed the leader state transition"
           "\[(.*?)\] .* Broker (.*?) completed the leader state transition for topic (.*?) partition (.*?) \(.*"
           (example_election_line +:+ PyStr.nl) "2014-01-01 00:00:00,500" "1" "test_1" "0" "4242"
           1388534400500000 w).
  - vm_compute; reflexivity.
  - vm_compute; reflexivity.
  - vm_compute; reflexivity.
  - apply example_brokers_known.
  - vm_compute; reflexivity.
  - intros tr cmd. vm_compute; reflexivity.
  - vm_compute; reflexivity.
  - vm_compute; reflexivity.
  - vm_compute; reflexivity.
  - vm_compute; reflexivity.
Defined.
